(** * I Love PyPDF: the compression driver of [main.py]

    A shallow embedding of [compress_pdf] and [main] together with the
    properties of the driver: which pages reach the output document, which
    calls are made on the PDF library, what happens to the two files, what
    the statistics are and how failures travel to the caller.

    The script is effectful Python: it reads and writes files, calls the
    PyPDF2 library, prints and raises.  It is modelled in a state and
    exception monad over a [world] (the filesystem, the log of observable
    events, the clock).  PyPDF2 and the operating system are not part of the
    repository: they are interfaces ([PdfLibrary], [Platform]) and every
    theorem holds for all their implementations.  Python floats are IEEE
    binary64 numbers, which are Rocq's primitive floats. *)

From Stdlib Require Import ZArith Floats Uint63 Strings.Byte.
From stdpp Require Import gmap strings list.

Local Open Scope Z_scope.

(** ** Exceptions *)

(** The exception classes the handlers of [compress_pdf] tell apart, and the
    one the script can raise by its own arithmetic.  Everything else that is
    an [Exception] is [OtherException] with its class name. *)
Inductive exn_class :=
  | FileNotFoundError
  | PermissionError
  | ZeroDivisionError
  | OtherException (name : string).

(** An exception object: its class and [str(e)]. *)
Record exn := Exn { exn_cls : exn_class; exn_str : string }.

Inductive result (A : Type) :=
  | Return (a : A)
  | Raise (e : exn).
Arguments Return {A} a.
Arguments Raise {A} e.

(** ** Python floats *)

Module PyFloat.

(** The binary64 number nearest to [± n / d] (ties to even). *)
Definition nearest (neg : bool) (n d : positive) : float :=
  SF2Prim (SFdiv prec emax (S754_finite neg n 0) (S754_finite false d 0)).

(** [a / b] on Python ints with [b > 0]: the correctly rounded quotient. *)
Definition int_truediv (a : Z) (b : positive) : float :=
  match a with
  | Z0 => PrimFloat.zero
  | Zpos n => nearest false n b
  | Zneg n => nearest true n b
  end.

(** [x / y] on floats: raises on a zero divisor (of either sign). *)
Definition truediv (x y : float) : result float :=
  if PrimFloat.eqb y PrimFloat.zero
  then Raise (Exn ZeroDivisionError "float division by zero")
  else Return (PrimFloat.div x y).

(** [|x| * 10^ndigits] for [|x| = m * 2^e], rounded to the nearest integer,
    ties to even. *)
Definition scaled_half_even (m : positive) (e : Z) (ndigits : nat) : Z :=
  let num := Zpos m * 10 ^ Z.of_nat ndigits in
  if 0 <=? e then num * 2 ^ e
  else
    let d := 2 ^ (- e) in
    let q := num / d in
    match 2 * (num mod d) ?= d with
    | Lt => q
    | Gt => q + 1
    | Eq => if Z.even q then q else q + 1
    end.

(** [round(x, ndigits)] for a float and [0 <= ndigits]: the exact value of
    [x] is rounded to [ndigits] decimals (ties to even) and the decimal
    obtained is converted back to the nearest float; the sign is kept, and
    infinities and nan are returned as they are. *)
Definition round (x : float) (ndigits : nat) : float :=
  match Prim2SF x with
  | S754_finite s m e =>
      match scaled_half_even m e ndigits with
      | Zpos n => nearest s n (Z.to_pos (10 ^ Z.of_nat ndigits))
      | _ => if s then PrimFloat.neg_zero else PrimFloat.zero
      end
  | _ => x
  end.

End PyFloat.

(** ** The collaborators *)

(** PyPDF2, as far as the script uses it.  A reader parses the bytes of the
    file it is given; [compress_content_streams] rewrites a page in place
    (here: returns the page as rewritten) with an optional [level] argument;
    a writer is the list of the pages added so far, and [write] produces
    bytes on the file handle and may raise after some of them. *)
Class PdfLibrary := {
  page : Type;
  PdfReader_read : list byte -> result (list page);
  compress_content_streams : option Z -> page -> result page;
  PdfWriter_write : list page -> list byte * option exn;
}.

(** The operating system: whether a path can be opened for reading or for
    writing (permissions, directories, ...), the wall clock in microseconds
    at the n-th reading, and the file a path names: [resolve] gives the
    identity of the file that [os.path.exists], [open] and
    [os.path.getsize] reach through a path, so that two spellings of a path
    ([example.pdf] and [./example.pdf], a link and its target) resolve to
    the same file. *)
Class Platform := {
  open_rb_error : string -> option exn;
  open_wb_error : string -> option exn;
  datetime_now : nat -> Z;
  resolve : string -> string;
}.

(** ** Observable events *)

(** The lines the script prints. *)
Inductive message :=
  | MsgProcessing (total_pages : nat)
  | MsgCompressedPage (page_number total_pages : nat)
  | MsgSaving
  | MsgCompleted
  | MsgOriginalSize (kb : float)
  | MsgCompressedSize (kb : float)
  | MsgReduction (percent : float)
  | MsgProcessingTime (seconds : float)
  | MsgError (text : string)
  | MsgPermissionDenied
  | MsgUnexpected (text : string)
  | MsgCompressionFailed (text : string).

Section Model.

Context {Lib : PdfLibrary} {Os : Platform}.

Inductive event :=
  | EvNow
  | EvExists (path : string)
  | EvPdfReader (path : string)
  | EvPdfWriter
  | EvLenPages
  | EvCompress (level : option Z) (p : page)
  | EvAddPage (p : page)
  | EvOpenWrite (path : string)
  | EvWrite (path : string) (document : list page)
  | EvGetSize (path : string)
  | EvPrint (m : message).

(** The filesystem maps the identity of a file (see [resolve]) to its
    content. *)
Record world := World {
  fs : gmap string (list byte);
  log : list event;
  clock : nat;
}.

(** ** The monad *)

Definition M (A : Type) : Type := world -> result A * world.

Definition ret {A} (a : A) : M A := fun w => (Return a, w).

Definition bind {A B} (m : M A) (k : A -> M B) : M B :=
  fun w =>
    match m w with
    | (Return a, w') => k a w'
    | (Raise e, w') => (Raise e, w')
    end.

Definition raise {A} (e : exn) : M A := fun w => (Raise e, w).

Definition lift {A} (r : result A) : M A := fun w => (r, w).

Definition try_except {A} (body : M A) (handler : exn -> M A) : M A :=
  fun w =>
    match body w with
    | (Return a, w') => (Return a, w')
    | (Raise e, w') => handler e w'
    end.

Definition emit (ev : event) : M unit :=
  fun w => (Return tt, World (fs w) (log w ++ [ev]) (clock w)).

Definition set_file (file : string) (content : list byte) : M unit :=
  fun w => (Return tt, World (<[file := content]> (fs w)) (log w) (clock w)).

End Model.

Declare Scope py_scope.
Delimit Scope py_scope with py.
Notation "x <- m ;; k" := (bind m (fun x => k))
  (at level 100, m at next level, right associativity) : py_scope.
Notation "m ;; k" := (bind m (fun _ => k))
  (at level 100, right associativity) : py_scope.

Section Script.

Context {Lib : PdfLibrary} {Os : Platform}.
Local Open Scope py_scope.

(** ** Built-ins and library calls *)

Definition print (m : message) : M unit := emit (EvPrint m).

(** [datetime.now()], in microseconds. *)
Definition now : M Z :=
  fun w => (Return (datetime_now (clock w)),
            World (fs w) (log w ++ [EvNow]) (S (clock w))).

(** [os.path.exists(path)]. *)
Definition path_exists (path : string) : M bool :=
  emit (EvExists path);;
  fun w => (Return (bool_decide (is_Some (fs w !! resolve path))), w).

Definition no_such_file (path : string) : exn :=
  Exn FileNotFoundError ("[Errno 2] No such file or directory: " ++ path).

(** [os.path.getsize(path)], in bytes. *)
Definition getsize (path : string) : M Z :=
  emit (EvGetSize path);;
  fun w =>
    match fs w !! resolve path with
    | Some content => (Return (Z.of_nat (length content)), w)
    | None => (Raise (no_such_file path), w)
    end.

(** [PdfReader(path)]: opens the path for reading, reads the whole file
    and parses it; the value is [reader.pages]. *)
Definition new_PdfReader (path : string) : M (list page) :=
  emit (EvPdfReader path);;
  match open_rb_error path with
  | Some e => raise e
  | None =>
      fun w =>
        match fs w !! resolve path with
        | Some content => (PdfReader_read content, w)
        | None => (Raise (no_such_file path), w)
        end
  end.

(** [PdfWriter()]: an empty output document. *)
Definition new_PdfWriter : M (list page) :=
  emit EvPdfWriter;; ret [].

(** [len(reader.pages)]. *)
Definition len_pages (pages : list page) : M nat :=
  emit EvLenPages;; ret (length pages).

(** [page.compress_content_streams(...)]; [level = None] is the call
    without argument. *)
Definition call_compress_content_streams (level : option Z) (p : page)
  : M page :=
  emit (EvCompress level p);; lift (compress_content_streams level p).

(** [writer.add_page(page)]. *)
Definition add_page (writer : list page) (p : page) : M (list page) :=
  emit (EvAddPage p);; ret (writer ++ [p]).

(** [with open(output_file, 'wb') as output: writer.write(output)]:
    opening truncates or creates the file, then the writer's bytes land in
    it, all of them or those produced before [write] raised. *)
Definition open_and_write (output_file : string) (writer : list page)
  : M unit :=
  emit (EvOpenWrite output_file);;
  match open_wb_error output_file with
  | Some e => raise e
  | None =>
      set_file (resolve output_file) [];;
      emit (EvWrite output_file writer);;
      set_file (resolve output_file) (PdfWriter_write writer).1;;
      match (PdfWriter_write writer).2 with
      | Some e => raise e
      | None => ret tt
      end
  end.

(** [(t1 - t0).total_seconds()] for two clock readings. *)
Definition total_seconds (t0 t1 : Z) : float :=
  PyFloat.int_truediv (t1 - t0) 1000000.

(** ** compress_pdf *)

Record stats := Stats {
  original_size : float;
  compressed_size : float;
  reduction_percent : float;
  processing_time : float;
}.

(** The loop [for page_number, page in enumerate(reader.pages, 1)]. *)
Fixpoint compress_pages (high_quality : bool) (total_pages : nat)
    (page_number : nat) (pages : list page) (writer : list page)
  : M (list page) :=
  match pages with
  | [] => ret writer
  | p :: rest =>
      p <- (if high_quality
            then call_compress_content_streams None p
            else call_compress_content_streams (Some 9) p);;
      writer <- add_page writer p;;
      print (MsgCompressedPage page_number total_pages);;
      compress_pages high_quality total_pages (S page_number) rest writer
  end.

(** The [try] block.  The primed names are the local variables
    [original_size], [compressed_size] and [processing_time], which the
    keys of the dictionary returned share with them. *)
Definition compress_pdf_try (input_file output_file : string)
    (high_quality : bool) : M stats :=
  start_time <- now;;
  found <- path_exists input_file;;
  (if negb found
   then raise (Exn FileNotFoundError
                 ("Input file not found: " ++ input_file))
   else ret tt);;
  reader <- new_PdfReader input_file;;
  writer <- new_PdfWriter;;
  total_pages <- len_pages reader;;
  print (MsgProcessing total_pages);;
  writer <- compress_pages high_quality total_pages 1 reader writer;;
  print MsgSaving;;
  open_and_write output_file writer;;
  input_bytes <- getsize input_file;;
  let original_size' := PyFloat.int_truediv input_bytes 1024 in
  output_bytes <- getsize output_file;;
  let compressed_size' := PyFloat.int_truediv output_bytes 1024 in
  ratio <- lift (PyFloat.truediv
                   (PrimFloat.sub original_size' compressed_size')
                   original_size');;
  let reduction := PrimFloat.mul ratio (PrimFloat.of_uint63 100) in
  end_time <- now;;
  let processing_time' := total_seconds start_time end_time in
  let stats := Stats (PyFloat.round original_size' 2)
                     (PyFloat.round compressed_size' 2)
                     (PyFloat.round reduction 1)
                     (PyFloat.round processing_time' 2) in
  print MsgCompleted;;
  print (MsgOriginalSize (original_size stats));;
  print (MsgCompressedSize (compressed_size stats));;
  print (MsgReduction (reduction_percent stats));;
  print (MsgProcessingTime (processing_time stats));;
  ret stats.

(** The three [except] clauses, tried in order; each prints and re-raises. *)
Definition diagnostic (e : exn) : message :=
  match exn_cls e with
  | FileNotFoundError => MsgError (exn_str e)
  | PermissionError => MsgPermissionDenied
  | _ => MsgUnexpected (exn_str e)
  end.

Definition compress_pdf_except (e : exn) : M stats :=
  print (diagnostic e);; raise e.

(** [def compress_pdf(input_file, output_file, high_quality=True)];
    [high_quality = None] is the call that leaves the argument out. *)
Definition compress_pdf (input_file output_file : string)
    (high_quality : option bool) : M stats :=
  try_except
    (compress_pdf_try input_file output_file (default true high_quality))
    compress_pdf_except.

(** ** main *)

Definition main : M Z :=
  try_except
    (let input_file := "example.pdf" in
     let output_file := "example_compressed.pdf" in
     stats <- compress_pdf input_file output_file None;;
     ret 0)
    (fun e => print (MsgCompressionFailed (exn_str e));; ret 1).

(** ** Reading the log *)

(** The [level] argument that [compress_pdf] passes for a quality setting. *)
Definition quality_level (high_quality : bool) : option Z :=
  if high_quality then None else Some 9.

(** The pages handed to [writer.add_page], in the order of the calls. *)
Definition added_pages (evs : list event) : list page :=
  omap (fun ev => match ev with EvAddPage p => Some p | _ => None end) evs.

(** The calls of [compress_content_streams]: argument and page. *)
Definition compress_calls (evs : list event) : list (option Z * page) :=
  omap (fun ev => match ev with
                  | EvCompress level p => Some (level, p)
                  | _ => None
                  end) evs.

(** Calls into PyPDF2. *)
Definition library_call (ev : event) : bool :=
  match ev with
  | EvPdfReader _ | EvPdfWriter | EvLenPages | EvCompress _ _
  | EvAddPage _ | EvWrite _ _ => true
  | _ => false
  end.

(** Events that open a file for writing or write to it. *)
Definition writes_file (ev : event) : bool :=
  match ev with
  | EvOpenWrite _ | EvWrite _ _ => true
  | _ => false
  end.

(** An event that opens or writes a file does so at [path]. *)
Definition writes_only_to (path : string) (ev : event) : Prop :=
  match ev with
  | EvOpenWrite path' | EvWrite path' _ => path' = path
  | _ => True
  end.

(** Events of the statistics step: the sizes are asked of the filesystem. *)
Definition measures_file (ev : event) : bool :=
  match ev with
  | EvGetSize _ => true
  | _ => false
  end.

(** The lines printed, in the order of printing. *)
Definition printed (evs : list event) : list message :=
  omap (fun ev => match ev with EvPrint m => Some m | _ => None end) evs.

(** The three operations a call performs once at most: building the reader,
    opening the output file, and [writer.write]. *)
Definition builds_reader (ev : event) : bool :=
  match ev with EvPdfReader _ => true | _ => false end.

Definition opens_output (ev : event) : bool :=
  match ev with EvOpenWrite _ => true | _ => false end.

Definition writes_document (ev : event) : bool :=
  match ev with EvWrite _ _ => true | _ => false end.

(** Readings of the clock. *)
Definition reads_clock (ev : event) : bool :=
  match ev with EvNow => true | _ => false end.

(** How many events of a log satisfy a test. *)
Definition occurrences (test : event -> bool) (evs : list event) : nat :=
  length (List.filter test evs).

(** The progress lines of pages [first], [first + 1], ... of [total_pages]. *)
Definition progress_lines (first count total_pages : nat) : list message :=
  (fun page_number => MsgCompressedPage page_number total_pages)
    <$> seq first count.

(** A page compresses without raising at the level of the quality setting. *)
Definition compressible (high_quality : bool) (p : page) : Prop :=
  exists p', compress_content_streams (quality_level high_quality) p = Return p'.

(** ** The runs of the loop and of the [try] block

    [loop_run] relates the pages still to visit and the writer to the
    events of the loop and its outcome; [try_run] lists the eight ways the
    [try] block ends, with the world it ends in. *)

Inductive loop_run (high_quality : bool) (total_pages : nat)
  : nat -> list page -> list page -> list event -> result (list page)
    -> Prop :=
  | loop_done n writer :
      loop_run high_quality total_pages n [] writer [] (Return writer)
  | loop_raise n p rest writer e :
      compress_content_streams (quality_level high_quality) p = Raise e ->
      loop_run high_quality total_pages n (p :: rest) writer
        [EvCompress (quality_level high_quality) p] (Raise e)
  | loop_next n p p' rest writer evs r :
      compress_content_streams (quality_level high_quality) p = Return p' ->
      loop_run high_quality total_pages (S n) rest (writer ++ [p']) evs r ->
      loop_run high_quality total_pages n (p :: rest) writer
        (EvCompress (quality_level high_quality) p :: EvAddPage p'
           :: EvPrint (MsgCompressedPage n total_pages) :: evs) r.

(** The events up to the loop, once the reader has parsed the file. *)
Definition opening_events (input_file : string) (pages : list page)
  : list event :=
  [EvNow; EvExists input_file; EvPdfReader input_file; EvPdfWriter;
   EvLenPages; EvPrint (MsgProcessing (length pages))].

(** The statistics of a run, from the two sizes in bytes, the quotient of
    the reduction and the two clock readings. *)
Definition stats_of (input_bytes output_bytes : Z) (ratio : float)
    (start_time end_time : Z) : stats :=
  Stats (PyFloat.round (PyFloat.int_truediv input_bytes 1024) 2)
        (PyFloat.round (PyFloat.int_truediv output_bytes 1024) 2)
        (PyFloat.round (PrimFloat.mul ratio (PrimFloat.of_uint63 100)) 1)
        (PyFloat.round (total_seconds start_time end_time) 2).

(** The quotient [(original_size - compressed_size) / original_size] on the
    sizes in KB as computed, before any rounding. *)
Definition reduction_ratio (input_bytes output_bytes : Z) : result float :=
  PyFloat.truediv
    (PrimFloat.sub (PyFloat.int_truediv input_bytes 1024)
                   (PyFloat.int_truediv output_bytes 1024))
    (PyFloat.int_truediv input_bytes 1024).

Definition summary_events (st : stats) : list event :=
  [EvNow; EvPrint MsgCompleted;
   EvPrint (MsgOriginalSize (original_size st));
   EvPrint (MsgCompressedSize (compressed_size st));
   EvPrint (MsgReduction (reduction_percent st));
   EvPrint (MsgProcessingTime (processing_time st))].

Inductive try_run (input_file output_file : string) (high_quality : bool)
    (w : world) : result stats -> world -> Prop :=
  | run_not_found :
      fs w !! resolve input_file = None ->
      try_run input_file output_file high_quality w
        (Raise (Exn FileNotFoundError
                  ("Input file not found: " ++ input_file)))
        (World (fs w) (log w ++ [EvNow; EvExists input_file])
               (S (clock w)))
  | run_open_failed e :
      is_Some (fs w !! resolve input_file) ->
      open_rb_error input_file = Some e ->
      try_run input_file output_file high_quality w (Raise e)
        (World (fs w)
               (log w ++ [EvNow; EvExists input_file;
                          EvPdfReader input_file])
               (S (clock w)))
  | run_read_failed content e :
      fs w !! resolve input_file = Some content ->
      open_rb_error input_file = None ->
      PdfReader_read content = Raise e ->
      try_run input_file output_file high_quality w (Raise e)
        (World (fs w)
               (log w ++ [EvNow; EvExists input_file;
                          EvPdfReader input_file])
               (S (clock w)))
  | run_page_failed content pages evs e :
      fs w !! resolve input_file = Some content ->
      open_rb_error input_file = None ->
      PdfReader_read content = Return pages ->
      loop_run high_quality (length pages) 1 pages [] evs (Raise e) ->
      try_run input_file output_file high_quality w (Raise e)
        (World (fs w)
               (log w ++ opening_events input_file pages ++ evs)
               (S (clock w)))
  | run_create_failed content pages evs writer e :
      fs w !! resolve input_file = Some content ->
      open_rb_error input_file = None ->
      PdfReader_read content = Return pages ->
      loop_run high_quality (length pages) 1 pages [] evs (Return writer) ->
      open_wb_error output_file = Some e ->
      try_run input_file output_file high_quality w (Raise e)
        (World (fs w)
               (log w ++ opening_events input_file pages ++ evs
                  ++ [EvPrint MsgSaving; EvOpenWrite output_file])
               (S (clock w)))
  | run_write_failed content pages evs writer e :
      fs w !! resolve input_file = Some content ->
      open_rb_error input_file = None ->
      PdfReader_read content = Return pages ->
      loop_run high_quality (length pages) 1 pages [] evs (Return writer) ->
      open_wb_error output_file = None ->
      (PdfWriter_write writer).2 = Some e ->
      try_run input_file output_file high_quality w (Raise e)
        (World (<[resolve output_file := (PdfWriter_write writer).1]> (fs w))
               (log w ++ opening_events input_file pages ++ evs
                  ++ [EvPrint MsgSaving; EvOpenWrite output_file;
                      EvWrite output_file writer])
               (S (clock w)))
  | run_stats_failed content pages evs writer measured e :
      fs w !! resolve input_file = Some content ->
      open_rb_error input_file = None ->
      PdfReader_read content = Return pages ->
      loop_run high_quality (length pages) 1 pages [] evs (Return writer) ->
      open_wb_error output_file = None ->
      (PdfWriter_write writer).2 = None ->
      <[resolve output_file := (PdfWriter_write writer).1]> (fs w)
        !! resolve input_file
        = Some measured ->
      reduction_ratio (Z.of_nat (length measured))
        (Z.of_nat (length (PdfWriter_write writer).1)) = Raise e ->
      try_run input_file output_file high_quality w (Raise e)
        (World (<[resolve output_file := (PdfWriter_write writer).1]> (fs w))
               (log w ++ opening_events input_file pages ++ evs
                  ++ [EvPrint MsgSaving; EvOpenWrite output_file;
                      EvWrite output_file writer;
                      EvGetSize input_file; EvGetSize output_file])
               (S (clock w)))
  | run_completed content pages evs writer measured ratio :
      fs w !! resolve input_file = Some content ->
      open_rb_error input_file = None ->
      PdfReader_read content = Return pages ->
      loop_run high_quality (length pages) 1 pages [] evs (Return writer) ->
      open_wb_error output_file = None ->
      (PdfWriter_write writer).2 = None ->
      <[resolve output_file := (PdfWriter_write writer).1]> (fs w)
        !! resolve input_file
        = Some measured ->
      reduction_ratio (Z.of_nat (length measured))
        (Z.of_nat (length (PdfWriter_write writer).1)) = Return ratio ->
      let st := stats_of (Z.of_nat (length measured))
                  (Z.of_nat (length (PdfWriter_write writer).1)) ratio
                  (datetime_now (clock w)) (datetime_now (S (clock w))) in
      try_run input_file output_file high_quality w (Return st)
        (World (<[resolve output_file := (PdfWriter_write writer).1]> (fs w))
               (log w ++ opening_events input_file pages ++ evs
                  ++ [EvPrint MsgSaving; EvOpenWrite output_file;
                      EvWrite output_file writer;
                      EvGetSize input_file; EvGetSize output_file]
                  ++ summary_events st)
               (S (S (clock w)))).

End Script.

(** ** A toy PDF library, to run the driver on concrete files

    A page is the length of its content stream.  A file of [n] bytes holds
    pages of 500 bytes and a last shorter one; compressing a page keeps two
    thirds of its stream, or half of it at level 9; the writer produces as
    many bytes as the streams of its pages.  The strict reader rejects the
    empty file, the lenient one reads it as a document without pages. *)
Module Toy.

Definition split_pages (n : nat) : list nat :=
  repeat 500%nat (n / 500) ++
  (if (n mod 500 =? 0)%nat then [] else [(n mod 500)%nat]).

Definition read (strict : bool) (content : list byte) : result (list nat) :=
  match content with
  | [] => if strict
          then Raise (Exn (OtherException "EmptyFileError")
                        "Cannot read an empty file")
          else Return []
  | _ => Return (split_pages (length content))
  end.

Definition compress (level : option Z) (p : nat) : result nat :=
  match level with
  | None => Return (2 * p / 3)%nat
  | Some _ => Return (p / 2)%nat
  end.

Definition write (document : list nat) : list byte * option exn :=
  (repeat x00 (foldr Nat.add 0%nat document), None).

Definition library (strict : bool) : PdfLibrary :=
  {| page := nat;
     PdfReader_read := read strict;
     compress_content_streams := compress;
     PdfWriter_write := write |}.

(** A path that starts with [./] names the file that the rest of it
    names. *)
Definition strip_dot (path : string) : string :=
  if String.prefix "./" path
  then String.substring 2 (String.length path - 2) path
  else path.

(** Every path can be opened; the clock advances by a quarter of a second
    between two readings. *)
Definition platform : Platform :=
  {| open_rb_error := fun _ => None;
     open_wb_error := fun _ => None;
     datetime_now := fun n => 250000 * Z.of_nat n;
     resolve := strip_dot |}.

Definition file (n : nat) : list byte := repeat x00 n.

Definition disk (files : list (string * nat)) : gmap string (list byte) :=
  list_to_map (prod_map id file <$> files).

Definition boot `{PdfLibrary} (files : list (string * nat)) : world :=
  World (disk files) [] 0.

(** [compress_pdf] on a freshly booted machine with the given files. *)
Definition run (strict : bool) (input_file output_file : string)
    (high_quality : option bool) (files : list (string * nat))
  : result stats * world :=
  compress_pdf (Lib := library strict) (Os := platform)
    input_file output_file high_quality (boot files).

(** A library that fails: a page of fewer than 500 bytes cannot be
    compressed, and on a document of more than 1000 bytes the writer gives
    up after 100 bytes.  And a platform on which [locked.pdf] cannot be
    opened for writing. *)
Definition compress_fragile (level : option Z) (p : nat) : result nat :=
  if (p <? 500)%nat
  then Raise (Exn (OtherException "PdfReadError") "Stream too short")
  else compress level p.

Definition write_fragile (document : list nat) : list byte * option exn :=
  if (1000 <? foldr Nat.add 0%nat document)%nat
  then (repeat x00 100,
        Some (Exn (OtherException "OSError") "No space left on device"))
  else write document.

Definition fragile_library : PdfLibrary :=
  {| page := nat;
     PdfReader_read := read true;
     compress_content_streams := compress_fragile;
     PdfWriter_write := write_fragile |}.

Definition locked_platform : Platform :=
  {| open_rb_error := fun _ => None;
     open_wb_error := fun path =>
       if String.eqb path "locked.pdf"
       then Some (Exn PermissionError "[Errno 13] Permission denied")
       else None;
     datetime_now := fun n => 250000 * Z.of_nat n;
     resolve := strip_dot |}.

End Toy.


(** * Properties *)

Section Runs.

Context {Lib : PdfLibrary} {Os : Platform}.

Lemma quality_level_call (high_quality : bool) (p : page) :
  (if high_quality
   then call_compress_content_streams None p
   else call_compress_content_streams (Some 9) p)
  = call_compress_content_streams (quality_level high_quality) p.
Proof. by destruct high_quality. Qed.

(** The loop leaves the files and the clock alone and only adds to the
    log; what it adds and how it ends is a [loop_run]. *)
Lemma compress_pages_run (high_quality : bool) (total_pages : nat)
    (pages : list page) :
  forall (page_number : nat) (writer : list page) (w : world),
  exists evs r,
    compress_pages high_quality total_pages page_number pages writer w
    = (r, World (fs w) (log w ++ evs) (clock w))
    /\ loop_run high_quality total_pages page_number pages writer evs r.
Proof.
  induction pages as [|p rest IH]; intros n writer w.
  - exists [], (Return writer). split; [|constructor].
    destruct w; cbn. by rewrite app_nil_r.
  - cbn [compress_pages]. rewrite quality_level_call.
    cbv [bind call_compress_content_streams add_page print emit lift ret].
    cbn [fs log clock].
    destruct (compress_content_streams (quality_level high_quality) p)
      as [p'|e] eqn:Hp.
    + destruct (IH (S n) (writer ++ [p'])
                  (World (fs w)
                     (((log w ++ [EvCompress (quality_level high_quality) p])
                         ++ [EvAddPage p'])
                        ++ [EvPrint (MsgCompressedPage n total_pages)])
                     (clock w)))
        as (evs & r & Hrun & Hloop).
      eexists _, r. split; [|by eapply loop_next].
      rewrite Hrun. cbn [fs log clock]. by rewrite <- !app_assoc.
    + eexists _, (Raise e). split; [reflexivity|by constructor].
Qed.

(** Every run of the [try] block is one of the eight of [try_run]. *)
Lemma compress_pdf_try_run (input_file output_file : string)
    (high_quality : bool) (w : world) :
  try_run input_file output_file high_quality w
    (compress_pdf_try input_file output_file high_quality w).1
    (compress_pdf_try input_file output_file high_quality w).2.
Proof.
  unfold compress_pdf_try.
  cbv [bind now path_exists new_PdfReader new_PdfWriter len_pages print
       open_and_write getsize set_file emit lift raise ret].
  cbn [fs log clock].
  destruct (fs w !! resolve input_file) as [content|] eqn:Hin.
  2:{ rewrite bool_decide_eq_false_2 by (by intros [? ?]). cbn.
      rewrite <- app_assoc. by constructor. }
  rewrite bool_decide_eq_true_2 by eauto. cbn [negb].
  destruct (open_rb_error input_file) as [e|] eqn:Hrb.
  { cbn. rewrite <- !app_assoc. constructor; eauto. }
  cbn [fs log clock]. rewrite Hin.
  destruct (PdfReader_read content) as [pages|e] eqn:Hread.
  2:{ cbn. rewrite <- !app_assoc. econstructor 3; eauto. }
  cbn [fs log clock].
  match goal with
  | |- context [compress_pages ?hq ?t ?n ?ps ?wr ?w0] =>
      destruct (compress_pages_run hq t ps n wr w0)
        as (evs & r & -> & Hloop)
  end.
  cbn [fs log clock].
  destruct r as [writer|e].
  2:{ cbn. rewrite <- !app_assoc. econstructor 4; eauto. }
  destruct (open_wb_error output_file) as [e|] eqn:Hwb.
  { cbn. rewrite <- !app_assoc. econstructor 5; eauto. }
  cbn [fs log clock]. rewrite insert_insert_eq.
  destruct (PdfWriter_write writer).2 as [e|] eqn:Hwrite.
  { cbn. rewrite <- !app_assoc. econstructor 6; eauto. }
  cbn [fs log clock].
  destruct (<[resolve output_file := (PdfWriter_write writer).1]> (fs w)
              !! resolve input_file)
    as [measured|] eqn:Hmeasured.
  2:{ apply lookup_insert_None in Hmeasured as [? _]. congruence. }
  cbn [fs log clock]. rewrite lookup_insert_eq.
  fold (reduction_ratio (Z.of_nat (length measured))
          (Z.of_nat (length (PdfWriter_write writer).1))).
  destruct (reduction_ratio (Z.of_nat (length measured))
              (Z.of_nat (length (PdfWriter_write writer).1)))
    as [ratio|e] eqn:Hratio.
  2:{ cbn. rewrite <- !app_assoc. econstructor 7; eauto. }
  cbn [fst snd fs log clock original_size compressed_size
       reduction_percent processing_time].
  rewrite <- !app_assoc.
  exact (run_completed input_file output_file high_quality w content pages
           evs writer measured ratio Hin Hrb Hread Hloop Hwb Hwrite
           Hmeasured Hratio).
Qed.

(** [compress_pdf] is its [try] block, with one diagnostic line added to
    the log when the block raises. *)
Lemma compress_pdf_run (input_file output_file : string)
    (high_quality : option bool) (w : world) :
  compress_pdf input_file output_file high_quality w
  = match compress_pdf_try input_file output_file
            (default true high_quality) w with
    | (Return st, w') => (Return st, w')
    | (Raise e, w') =>
        (Raise e,
         World (fs w') (log w' ++ [EvPrint (diagnostic e)]) (clock w'))
    end.
Proof.
  unfold compress_pdf, try_except.
  by destruct (compress_pdf_try _ _ _ w) as [[st|e] w'].
Qed.

(** *** The loop *)

Lemma loop_run_return (high_quality : bool) (total_pages n : nat)
    (pages writer : list page) (evs : list event) (r : result (list page)) :
  loop_run high_quality total_pages n pages writer evs r ->
  forall writer', r = Return writer' ->
  exists added,
    writer' = writer ++ added
    /\ added_pages evs = added
    /\ compress_calls evs = pair (quality_level high_quality) <$> pages
    /\ Forall2 (fun p p' =>
                  compress_content_streams (quality_level high_quality) p
                  = Return p') pages added.
Proof.
  induction 1 as [n writer|n p rest writer e Hp
                 |n p p' rest writer evs r Hp Hrun IH];
    intros writer' Hr.
  - injection Hr as <-. exists []. by rewrite app_nil_r.
  - discriminate.
  - destruct (IH _ Hr) as (added & -> & Hadded & Hcalls & Hall).
    exists (p' :: added). rewrite <- app_assoc.
    change (compress_calls (EvCompress (quality_level high_quality) p
                              :: EvAddPage p'
                              :: EvPrint (MsgCompressedPage n total_pages)
                              :: evs))
      with ((quality_level high_quality, p) :: compress_calls evs).
    change (added_pages (EvCompress (quality_level high_quality) p
                           :: EvAddPage p'
                           :: EvPrint (MsgCompressedPage n total_pages)
                           :: evs))
      with (p' :: added_pages evs).
    rewrite Hcalls, Hadded. repeat split; by try constructor.
Qed.

Lemma loop_run_raise (high_quality : bool) (total_pages n : nat)
    (pages writer : list page) (evs : list event) (r : result (list page)) :
  loop_run high_quality total_pages n pages writer evs r ->
  forall e, r = Raise e ->
  Exists (fun p => compress_content_streams (quality_level high_quality) p
                   = Raise e) pages.
Proof.
  induction 1 as [|n p rest writer e' Hp|? ? ? ? ? ? ? ? ? IH];
    intros e Hr.
  - discriminate.
  - injection Hr as <-. by constructor.
  - constructor 2. by apply IH.
Qed.

Lemma loop_run_compressible (high_quality : bool) (total_pages n : nat)
    (pages writer : list page) (evs : list event) (r : result (list page)) :
  loop_run high_quality total_pages n pages writer evs r ->
  Forall (compressible high_quality) pages ->
  exists writer', r = Return writer'.
Proof.
  induction 1 as [n writer|n p rest writer e Hp|? ? ? ? ? ? ? ? ? IH];
    intros Hall.
  - by eexists.
  - apply Forall_cons in Hall as [[p' Hp'] _]. congruence.
  - apply Forall_cons in Hall as [_ Hall]. by apply IH.
Qed.

Lemma loop_run_levels (high_quality : bool) (total_pages n : nat)
    (pages writer : list page) (evs : list event) (r : result (list page)) :
  loop_run high_quality total_pages n pages writer evs r ->
  Forall (fun call => call.1 = quality_level high_quality)
         (compress_calls evs).
Proof.
  induction 1; cbn; repeat constructor; done.
Qed.

Lemma loop_run_quiet (high_quality : bool) (total_pages n : nat)
    (pages writer : list page) (evs : list event) (r : result (list page)) :
  loop_run high_quality total_pages n pages writer evs r ->
  Forall (fun ev => writes_file ev = false /\ measures_file ev = false) evs.
Proof.
  induction 1; repeat constructor; done.
Qed.

End Runs.

Section Claims.

Context {Lib : PdfLibrary} {Os : Platform}.
Implicit Types (input_file output_file : string) (w : world).

(** Takes a run of [compress_pdf] apart: its [try] block ends in one of
    the eight ways of [try_run]. *)
Ltac run_cases input_file output_file high_quality w :=
  rewrite ?(compress_pdf_run input_file output_file high_quality w) in *;
  let Hrun := fresh "Hrun" in
  pose proof (compress_pdf_try_run input_file output_file
                (default true high_quality) w) as Hrun;
  destruct (compress_pdf_try input_file output_file
              (default true high_quality) w) as [? ?];
  cbn [fst snd] in Hrun;
  inversion Hrun; subst; clear Hrun; cbn [fst snd fs log clock] in *.

(** Splits a membership in a log written with [++] and [::]. *)
Ltac elem_cases H :=
  unfold opening_events, summary_events in H;
  repeat match type of H with
         | _ ∈ _ ++ _ => apply elem_of_app in H as [H|H]
         | _ ∈ _ :: _ => apply elem_of_cons in H as [H|H]
         | _ ∈ [] => by apply elem_of_nil in H
         end.

Lemma Forall2_compressed_not_raising (level : option Z)
    (pages added : list page) :
  Forall2 (fun p p' => compress_content_streams level p = Return p')
          pages added ->
  Exists (fun p => exists e, compress_content_streams level p = Raise e)
         pages ->
  False.
Proof.
  induction 1 as [|p p' pages added Hp _ IH]; intros Hex.
  - by apply Exists_nil in Hex.
  - apply Exists_cons in Hex as [[e He]|Hex]; [congruence|by apply IH].
Qed.

(** C3: when [input_file] does not exist, [compress_pdf] raises its own
    [FileNotFoundError] having only read the clock and asked whether the
    path exists: no call into the PDF library, no file opened or written,
    the filesystem (so [output_file] too) as it was; the one line printed
    is the diagnostic of the handler. *)
Theorem compress_pdf_input_not_found input_file output_file
    (high_quality : option bool) w :
  fs w !! resolve input_file = None ->
  let missing :=
    Exn FileNotFoundError ("Input file not found: " ++ input_file) in
  let evs := [EvNow; EvExists input_file; EvPrint (MsgError (exn_str missing))] in
  compress_pdf input_file output_file high_quality w
  = (Raise missing, World (fs w) (log w ++ evs) (S (clock w)))
  /\ Forall (fun ev => library_call ev = false /\ writes_file ev = false) evs
  /\ fs (compress_pdf input_file output_file high_quality w).2
       !! resolve output_file = fs w !! resolve output_file.
Proof.
  intros Hmissing missing evs.
  assert (compress_pdf input_file output_file high_quality w
          = (Raise missing, World (fs w) (log w ++ evs) (S (clock w))))
    as Heq.
  { run_cases input_file output_file high_quality w;
      try congruence.
    - by rewrite <- app_assoc.
    - match goal with H : is_Some _ |- _ => destruct H end. congruence. }
  rewrite Heq. repeat split; by repeat constructor.
Qed.


Lemma quiet_not_written (evs : list event) (path : string) :
  Forall (fun ev => writes_file ev = false) evs ->
  EvOpenWrite path ∈ evs \/ (exists document, EvWrite path document ∈ evs) ->
  False.
Proof.
  rewrite Forall_forall. intros Hquiet [Hin|[document Hin]];
    by apply Hquiet in Hin.
Qed.

Lemma writes_only_to_written (evs : list event) (output_file path : string) :
  Forall (writes_only_to output_file) evs ->
  EvOpenWrite path ∈ evs \/ (exists document, EvWrite path document ∈ evs) ->
  path = output_file.
Proof.
  rewrite Forall_forall. intros Honly [Hin|[document Hin]];
    by apply Honly in Hin.
Qed.

Lemma quiet_writes_only_to (evs : list event) (output_file : string) :
  Forall (fun ev => writes_file ev = false) evs ->
  Forall (writes_only_to output_file) evs.
Proof.
  intros Hquiet. eapply Forall_impl; [exact Hquiet|]. by intros [] Hev.
Qed.

Lemma loop_run_not_written (high_quality : bool) (total_pages n : nat)
    (pages writer : list page) (evs : list event) (r : result (list page)) :
  loop_run high_quality total_pages n pages writer evs r ->
  Forall (fun ev => writes_file ev = false) evs.
Proof.
  intros Hrun. eapply Forall_impl; [by eapply loop_run_quiet|].
  by intros ev [? _].
Qed.

(** The document a completed loop has built from an empty writer. *)
Lemma loop_run_document (high_quality : bool) (total_pages n : nat)
    (pages writer : list page) (evs : list event) :
  loop_run high_quality total_pages n pages [] evs (Return writer) ->
  added_pages evs = writer
  /\ compress_calls evs = pair (quality_level high_quality) <$> pages
  /\ Forall2 (fun p p' =>
                compress_content_streams (quality_level high_quality) p
                = Return p') pages writer.
Proof.
  intros Hrun.
  destruct (loop_run_return _ _ _ _ _ _ _ Hrun writer eq_refl)
    as (added & -> & Hadded & Hcalls & Hall).
  by rewrite app_nil_l.
Qed.

Lemma added_pages_app (evs1 evs2 : list event) :
  added_pages (evs1 ++ evs2) = added_pages evs1 ++ added_pages evs2.
Proof. apply omap_app. Qed.

Lemma compress_calls_app (evs1 evs2 : list event) :
  compress_calls (evs1 ++ evs2) = compress_calls evs1 ++ compress_calls evs2.
Proof. apply omap_app. Qed.

(** C10: a failure before serialization leaves the output alone, and the
    output is opened only after the last page.  In every run: (a) when the
    input is missing, cannot be opened, is rejected by the reader, or has
    a page whose compression raises, [compress_pdf] raises, no event opens
    or writes a file and the filesystem is as it was; (b) when a file is
    opened for writing or written at all, it is [output_file], and the
    events before the opening open or write nothing and contain the
    [add_page] of the compressed form of every page of the input, in
    order. *)
Theorem compress_pdf_writes_after_all_pages input_file output_file
    (high_quality : option bool) w :
  let level := quality_level (default true high_quality) in
  let r := (compress_pdf input_file output_file high_quality w).1 in
  let w' := (compress_pdf input_file output_file high_quality w).2 in
  exists evs,
    log w' = log w ++ evs
    /\ ((fs w !! resolve input_file = None
         \/ is_Some (open_rb_error input_file)
         \/ (exists content e,
               fs w !! resolve input_file = Some content
               /\ PdfReader_read content = Raise e)
         \/ (exists content pages,
               fs w !! resolve input_file = Some content
               /\ PdfReader_read content = Return pages
               /\ Exists (fun p => exists e,
                            compress_content_streams level p = Raise e)
                    pages)) ->
        (exists e, r = Raise e)
        /\ fs w' = fs w
        /\ Forall (fun ev => writes_file ev = false) evs)
    /\ (forall path,
          EvOpenWrite path ∈ evs
          \/ (exists document, EvWrite path document ∈ evs) ->
          path = output_file
          /\ exists content pages before after,
               fs w !! resolve input_file = Some content
               /\ PdfReader_read content = Return pages
               /\ evs = before ++ EvOpenWrite output_file :: after
               /\ Forall (fun ev => writes_file ev = false) before
               /\ Forall2 (fun p p' =>
                             compress_content_streams level p = Return p')
                    pages (added_pages before)).
Proof.
  intros level r w'. subst level r w'.
  run_cases input_file output_file high_quality w.
  all: eexists; split; [by rewrite <- ?app_assoc|].
  1-4: match goal with
       | |- context [Forall _ ?evs] =>
           assert (Forall (fun ev : event => writes_file ev = false) evs)
             as Hquiet
             by (rewrite ?Forall_app; repeat split;
                 try (by eapply loop_run_not_written);
                 by repeat constructor)
       end.
  1-4: split; [by eauto|];
       intros path Hpath; exfalso; by eapply quiet_not_written.
  all: match goal with
       | Hloop : loop_run _ _ _ _ _ _ (Return _) |- _ =>
           destruct (loop_run_document _ _ _ _ _ _ Hloop)
             as (Hadded & _ & Hall);
           pose proof (loop_run_not_written _ _ _ _ _ _ _ Hloop) as Hquiet
       end.
  all: split.
  1,3,5,7:
    intros [Hc|[[e' Hc]|[(c & e' & Hc1 & Hc2)|(c & ps & Hc1 & Hc2 & Hc3)]]];
    [congruence|congruence|congruence|];
    assert (c = content) as -> by congruence;
    assert (ps = pages) as -> by congruence;
    exfalso; eapply Forall2_compressed_not_raising; [exact Hall|exact Hc3].
  all: intros path Hpath; split.
  1,3,5,7:
    eapply writes_only_to_written; [|exact Hpath];
    rewrite ?Forall_app; repeat split;
    try (by apply quiet_writes_only_to); by repeat constructor.
  all: exists content, pages,
         (opening_events input_file pages ++ evs ++ [EvPrint MsgSaving]);
       eexists; split_and!; [done|done| | |].
  1,4,7,10: by rewrite <- !app_assoc.
  1,3,5,7: rewrite !Forall_app; repeat split; [|done|]; by repeat constructor.
  all: rewrite !added_pages_app, Hadded; cbn; by rewrite app_nil_r.
Qed.

(** C1: for a valid input document (the file opens, the reader parses
    it into [pages], every page compresses without raising) the pages
    handed to [add_page] are the compressed forms of the pages of the
    input, each once and in file order, so the output document has as many
    pages as the input; the document given to [write] is that one, and it
    is written whenever [output_file] can be opened. *)
Theorem compress_pdf_keeps_every_page input_file output_file
    (high_quality : option bool) w (content : list byte)
    (pages : list page) :
  fs w !! resolve input_file = Some content ->
  open_rb_error input_file = None ->
  PdfReader_read content = Return pages ->
  Forall (compressible (default true high_quality)) pages ->
  exists evs writer,
    log (compress_pdf input_file output_file high_quality w).2
    = log w ++ evs
    /\ added_pages evs = writer
    /\ length writer = length pages
    /\ Forall2 (fun p p' =>
                  compress_content_streams
                    (quality_level (default true high_quality)) p
                  = Return p') pages writer
    /\ (forall path document,
          EvWrite path document ∈ evs ->
          path = output_file /\ document = writer)
    /\ (open_wb_error output_file = None ->
        EvWrite output_file writer ∈ evs).
Proof.
  intros Hin Hrb Hread Hvalid.
  run_cases input_file output_file high_quality w.
  1-3: congruence || (match goal with H : is_Some _ |- _ => destruct H end;
                      congruence).
  all: assert (content0 = content) as -> by congruence;
       assert (pages0 = pages) as -> by congruence.
  { match goal with
    | Hloop : loop_run _ _ _ _ _ _ (Raise _) |- _ =>
        destruct (loop_run_compressible _ _ _ _ _ _ _ Hloop Hvalid)
    end. discriminate. }
  all: match goal with
       | Hloop : loop_run _ _ _ _ _ _ (Return _) |- _ =>
           destruct (loop_run_document _ _ _ _ _ _ Hloop)
             as (Hadded & _ & Hall);
           pose proof (loop_run_not_written _ _ _ _ _ _ _ Hloop) as Hquiet
       end.
  all: eexists _, writer; split_and!;
         [by rewrite <- ?app_assoc
         |rewrite !added_pages_app, Hadded; cbn; by rewrite app_nil_r
         |symmetry; by eapply Forall2_length
         |done| |].
  1,3,5,7:
    intros path document Hel; elem_cases Hel;
    try discriminate; try (by injection Hel as -> ->);
    rewrite Forall_forall in Hquiet; by apply Hquiet in Hel.
  1: congruence.
  all: intros _; rewrite !elem_of_app, !elem_of_cons; eauto 10.
Qed.

(** The calls of [compress_content_streams] in a run: all at the level of
    the quality setting, and one per page, in order, when the document is
    valid. *)
Lemma compress_pdf_calls input_file output_file
    (high_quality : option bool) w :
  exists evs,
    log (compress_pdf input_file output_file high_quality w).2
    = log w ++ evs
    /\ Forall (fun call =>
                 call.1 = quality_level (default true high_quality))
         (compress_calls evs)
    /\ (forall content pages,
          fs w !! resolve input_file = Some content ->
          open_rb_error input_file = None ->
          PdfReader_read content = Return pages ->
          Forall (compressible (default true high_quality)) pages ->
          compress_calls evs
          = pair (quality_level (default true high_quality)) <$> pages).
Proof.
  run_cases input_file output_file high_quality w.
  all: eexists; split; [by rewrite <- ?app_assoc|].
  all: rewrite !compress_calls_app; cbn; rewrite ?app_nil_r.
  all: split; [first [by constructor|by eapply loop_run_levels]|].
  all: intros content' pages' Hin Hrb Hread Hvalid.
  1-3: congruence || (match goal with H : is_Some _ |- _ => destruct H end;
                      congruence).
  all: assert (content' = content) as -> by congruence;
       assert (pages' = pages) as -> by congruence.
  { match goal with
    | Hloop : loop_run _ _ _ _ _ _ (Raise _) |- _ =>
        destruct (loop_run_compressible _ _ _ _ _ _ _ Hloop Hvalid)
    end. discriminate. }
  all: match goal with
       | Hloop : loop_run _ _ _ _ _ _ (Return _) |- _ =>
           by destruct (loop_run_document _ _ _ _ _ _ Hloop) as (_ & -> & _)
       end.
Qed.

(** C2: every call of the per-page compression made by a run with
    [high_quality=True] is the call without argument (the default level),
    every call made with [high_quality=False] passes [level=9]; on a valid
    document there is exactly one such call per page, in page order; the
    two calls differ in their argument; and leaving [high_quality] out is
    calling with [True]. *)
Theorem compress_pdf_quality_parameter input_file output_file w :
  (forall (high_quality : option bool) evs,
     log (compress_pdf input_file output_file high_quality w).2
     = log w ++ evs ->
     Forall (fun call =>
               call.1 = if default true high_quality then None else Some 9)
       (compress_calls evs))
  /\ (forall (high_quality : option bool) content pages evs,
        fs w !! resolve input_file = Some content ->
        open_rb_error input_file = None ->
        PdfReader_read content = Return pages ->
        Forall (compressible (default true high_quality)) pages ->
        log (compress_pdf input_file output_file high_quality w).2
        = log w ++ evs ->
        compress_calls evs
        = pair (if default true high_quality then None else Some 9)
            <$> pages)
  /\ (None : option Z) <> Some 9
  /\ compress_pdf input_file output_file None w
     = compress_pdf input_file output_file (Some true) w.
Proof.
  split_and!; [| |done|done].
  - intros high_quality evs Hlog.
    destruct (compress_pdf_calls input_file output_file high_quality w)
      as (evs' & Hlog' & Hlevels & _).
    rewrite Hlog' in Hlog. by apply app_inv_head in Hlog as <-.
  - intros high_quality content pages evs Hin Hrb Hread Hvalid Hlog.
    destruct (compress_pdf_calls input_file output_file high_quality w)
      as (evs' & Hlog' & _ & Hcalls).
    rewrite Hlog' in Hlog. apply app_inv_head in Hlog as <-. eauto.
Qed.

(** C8: a successful call leaves at [output_file] exactly the bytes that
    [write] produced for the document of compressed pages, whatever the
    file held before (or whether it existed): the new content does not
    depend on the old one, and no other path changed. *)
Theorem compress_pdf_overwrites_output input_file output_file
    (high_quality : option bool) w (st : stats) (w' : world) :
  compress_pdf input_file output_file high_quality w = (Return st, w') ->
  exists content pages writer,
    fs w !! resolve input_file = Some content
    /\ PdfReader_read content = Return pages
    /\ Forall2 (fun p p' =>
                  compress_content_streams
                    (quality_level (default true high_quality)) p
                  = Return p') pages writer
    /\ (PdfWriter_write writer).2 = None
    /\ fs w' !! resolve output_file = Some (PdfWriter_write writer).1
    /\ fs w' = <[resolve output_file := (PdfWriter_write writer).1]> (fs w).
Proof.
  intros Heq. revert Heq.
  run_cases input_file output_file high_quality w; intros Heq;
    try discriminate.
  injection Heq as <- <-. cbn [fs].
  match goal with
  | Hloop : loop_run _ _ _ _ _ _ (Return _) |- _ =>
      destruct (loop_run_document _ _ _ _ _ _ Hloop) as (_ & _ & Hall)
  end.
  exists content, pages, writer. by rewrite lookup_insert_eq.
Qed.

(** C9, amended: when [output_file] and [input_file] name different files
    (they do not resolve to the same file: not the same path, nor two
    spellings of it, nor a link to it), no run of [compress_pdf] changes
    the input file: the only path ever opened for writing or written is
    [output_file], and every file other than the one it names holds after
    the call what it held before. *)
Theorem compress_pdf_leaves_input input_file output_file
    (high_quality : option bool) w :
  resolve output_file <> resolve input_file ->
  let w' := (compress_pdf input_file output_file high_quality w).2 in
  fs w' !! resolve input_file = fs w !! resolve input_file
  /\ (forall file, file <> resolve output_file -> fs w' !! file = fs w !! file)
  /\ exists evs,
       log w' = log w ++ evs /\ Forall (writes_only_to output_file) evs.
Proof.
  intros Hdiff w'. subst w'.
  run_cases input_file output_file high_quality w.
  all: split_and!;
         [by rewrite ?lookup_insert_ne
         |by intros path Hpath; rewrite ?lookup_insert_ne
         |eexists; split; [by rewrite <- ?app_assoc|]].
  all: rewrite ?Forall_app; repeat split;
         try (apply quiet_writes_only_to; by eapply loop_run_not_written);
         by repeat constructor.
Qed.

(** The division of the reduction raises only [ZeroDivisionError], and
    does so when the input measures zero bytes. *)
Lemma reduction_ratio_raise (input_bytes output_bytes : Z) (e : exn) :
  reduction_ratio input_bytes output_bytes = Raise e ->
  e = Exn ZeroDivisionError "float division by zero".
Proof.
  unfold reduction_ratio, PyFloat.truediv.
  destruct (PrimFloat.eqb _ _); congruence.
Qed.

Lemma reduction_ratio_zero (output_bytes : Z) :
  reduction_ratio 0 output_bytes
  = Raise (Exn ZeroDivisionError "float division by zero").
Proof. reflexivity. Qed.

(** C4, amended: on success the sizes are those of the two files on disk
    after the write; [original_size] and [compressed_size] are
    bytes / 1024 rounded to 2 decimals, and [reduction_percent] is
    [(o - c) / o * 100] rounded to 1 decimal where [o] and [c] are the two
    quotients bytes / 1024 as computed, before their rounding (not the two
    rounded values of the record). *)
Theorem compress_pdf_statistics input_file output_file
    (high_quality : option bool) w (st : stats) (w' : world) :
  compress_pdf input_file output_file high_quality w = (Return st, w') ->
  exists (input_content output_content : list byte) (ratio : float),
    fs w' !! resolve input_file = Some input_content
    /\ fs w' !! resolve output_file = Some output_content
    /\ let o := PyFloat.int_truediv (Z.of_nat (length input_content)) 1024 in
       let c := PyFloat.int_truediv (Z.of_nat (length output_content)) 1024 in
       original_size st = PyFloat.round o 2
       /\ compressed_size st = PyFloat.round c 2
       /\ PyFloat.truediv (PrimFloat.sub o c) o = Return ratio
       /\ reduction_percent st
          = PyFloat.round (PrimFloat.mul ratio (PrimFloat.of_uint63 100)) 1.
Proof.
  intros Heq. revert Heq.
  run_cases input_file output_file high_quality w; intros Heq;
    try discriminate.
  injection Heq as <- <-. cbn [fs].
  exists measured, (PdfWriter_write writer).1, ratio.
  by rewrite lookup_insert_eq.
Qed.

Lemma loop_run_not_measured (high_quality : bool) (total_pages n : nat)
    (pages writer : list page) (evs : list event) (r : result (list page)) :
  loop_run high_quality total_pages n pages writer evs r ->
  Forall (fun ev => measures_file ev = false) evs.
Proof.
  intros Hrun. eapply Forall_impl; [by eapply loop_run_quiet|].
  by intros ev [_ ?].
Qed.

(** C5: for a zero-byte input file [compress_pdf] raises a defined error
    to the caller and never gets to the statistics.  The reader of PyPDF2
    raises on an empty file (a reader fails on a file that is not a valid
    document), and what the call raises is that exception, or the one the
    platform raised on opening the path, after the diagnostic line for it;
    no file is opened for writing or written and no size is asked for, so
    the division of the reduction is not reached, and the filesystem is as
    it was. *)
Theorem compress_pdf_empty_input input_file output_file
    (high_quality : option bool) w (rejected : exn) :
  fs w !! resolve input_file = Some [] ->
  PdfReader_read [] = Raise rejected ->
  exists e evs,
    compress_pdf input_file output_file high_quality w
    = (Raise e,
       World (fs w) (log w ++ evs ++ [EvPrint (diagnostic e)]) (S (clock w)))
    /\ (e = rejected \/ open_rb_error input_file = Some e)
    /\ Forall (fun ev => writes_file ev = false /\ measures_file ev = false)
         evs.
Proof.
  intros Hin Hrejected.
  run_cases input_file output_file high_quality w.
  all: try match goal with
           | H : fs _ !! _ = Some ?c |- _ =>
               is_var c; rewrite Hin in H; injection H as <-
           end.
  all: try congruence.
  all: rewrite <- (app_assoc (log w));
       eexists _, _; split; [reflexivity|split].
  - by right.
  - by repeat constructor.
  - left. congruence.
  - by repeat constructor.
Qed.

(** C6: whatever is raised inside the [try] block of [compress_pdf] is
    raised to the caller, the same exception object, after exactly one
    diagnostic line has been printed (the message for
    [FileNotFoundError], the fixed line for [PermissionError], the
    unexpected-error line with the message for everything else) and
    nothing else has been done: the block is not run again.  What is
    raised is the script's own not-found, or what the platform or the PDF
    library raised on opening, reading, compressing a page or writing, or
    the division by zero of the reduction.  A block that returns is
    returned from unchanged. *)
Theorem compress_pdf_reraises input_file output_file
    (high_quality : option bool) w :
  match compress_pdf_try input_file output_file
          (default true high_quality) w with
  | (Return st, w1) =>
      compress_pdf input_file output_file high_quality w = (Return st, w1)
  | (Raise e, w1) =>
      compress_pdf input_file output_file high_quality w
      = (Raise e,
         World (fs w1) (log w1 ++ [EvPrint (diagnostic e)]) (clock w1))
      /\ diagnostic e
         = match exn_cls e with
           | FileNotFoundError => MsgError (exn_str e)
           | PermissionError => MsgPermissionDenied
           | ZeroDivisionError | OtherException _ =>
               MsgUnexpected (exn_str e)
           end
      /\ (e = Exn FileNotFoundError ("Input file not found: " ++ input_file)
          \/ open_rb_error input_file = Some e
          \/ (exists content,
                fs w !! resolve input_file = Some content
                /\ PdfReader_read content = Raise e)
          \/ (exists content pages,
                fs w !! resolve input_file = Some content
                /\ PdfReader_read content = Return pages
                /\ Exists (fun p =>
                             compress_content_streams
                               (quality_level (default true high_quality)) p
                             = Raise e) pages)
          \/ open_wb_error output_file = Some e
          \/ (exists writer, (PdfWriter_write writer).2 = Some e)
          \/ e = Exn ZeroDivisionError "float division by zero")
  end.
Proof.
  rewrite compress_pdf_run.
  pose proof (compress_pdf_try_run input_file output_file
                (default true high_quality) w) as Hrun.
  destruct (compress_pdf_try input_file output_file
              (default true high_quality) w) as [[st|e] w1];
    [done|].
  cbn [fst snd] in Hrun.
  split_and!; [done|by destruct e as [[] ?]|].
  inversion Hrun; subst; clear Hrun.
  - by left.
  - right; by left.
  - do 2 right; left; eauto.
  - do 3 right; left. eexists _, _; split_and!; [done|done|].
    by eapply loop_run_raise.
  - do 4 right; by left.
  - do 5 right; left; eauto.
  - do 6 right. by eapply reduction_ratio_raise.
Qed.

(** C7: [main] returns exit status 0 when [compress_pdf] (on the two
    fixed paths, [high_quality] left to its default) returns, and for
    every exception it raises [main] prints the final "Compression
    failed" line with its message and returns exit status 1. *)
Theorem main_exit_status w :
  match compress_pdf "example.pdf" "example_compressed.pdf" None w with
  | (Return st, w') => main w = (Return 0, w')
  | (Raise e, w') =>
      main w
      = (Return 1,
         World (fs w')
               (log w' ++ [EvPrint (MsgCompressionFailed (exn_str e))])
               (clock w'))
  end.
Proof.
  unfold main, try_except, bind.
  by destruct (compress_pdf "example.pdf" "example_compressed.pdf" None w)
    as [[st|e] w'].
Qed.

End Claims.

(** * Further properties of the driver *)

Section Outcomes.

Context {Lib : PdfLibrary} {Os : Platform}.
Implicit Types (input_file output_file : string) (w : world).

(** *** [try_run] is the graph of the [try] block *)

Lemma loop_run_deterministic (high_quality : bool) (total_pages n : nat)
    (pages writer : list page) (evs1 evs2 : list event)
    (r1 r2 : result (list page)) :
  loop_run high_quality total_pages n pages writer evs1 r1 ->
  loop_run high_quality total_pages n pages writer evs2 r2 ->
  evs1 = evs2 /\ r1 = r2.
Proof.
  intros Hrun1. revert evs2 r2.
  induction Hrun1 as [n writer|n p rest writer e Hp
                     |n p p' rest writer evs r Hp Hrun1 IH];
    intros evs2 r2 Hrun2; inversion Hrun2; subst; try congruence.
  - done.
  - split; congruence.
  - assert (p'0 = p') as -> by congruence.
    match goal with
    | H : loop_run _ _ _ _ _ evs0 r2 |- _ => destruct (IH _ _ H) as [-> ->]
    end.
    done.
Qed.

Lemma try_run_deterministic input_file output_file (high_quality : bool) w
    (r1 r2 : result stats) (w1 w2 : world) :
  try_run input_file output_file high_quality w r1 w1 ->
  try_run input_file output_file high_quality w r2 w2 ->
  r1 = r2 /\ w1 = w2.
Proof.
  intros Hrun1 Hrun2.
  inversion Hrun1; subst; inversion Hrun2; subst;
    repeat match goal with
           | H : is_Some _ |- _ => destruct H
           end;
    try congruence.
  all: repeat match goal with
              | H1 : ?t = Some ?a, H2 : ?t = Some ?b |- _ =>
                  is_var b; assert (b = a) by congruence; subst b; clear H2
              | H1 : ?t = Return ?a, H2 : ?t = Return ?b |- _ =>
                  is_var b; assert (b = a) by congruence; subst b; clear H2
              | H1 : ?t = Raise ?a, H2 : ?t = Raise ?b |- _ =>
                  is_var b; assert (b = a) by congruence; subst b; clear H2
              | H1 : loop_run _ _ _ _ _ ?e1 ?r1,
                H2 : loop_run _ _ _ _ _ ?e2 ?r2 |- _ =>
                  destruct (loop_run_deterministic _ _ _ _ _ _ _ _ _ H1 H2)
                    as [? ?];
                  clear H2; simplify_eq
              end.
  all: try (split; congruence).
  subst st st0. split; reflexivity.
Qed.

(** A run described by [try_run] is the run of the [try] block, and lifts
    to [compress_pdf]. *)
Lemma try_run_complete input_file output_file (high_quality : bool) w
    (r : result stats) (w' : world) :
  try_run input_file output_file high_quality w r w' ->
  compress_pdf_try input_file output_file high_quality w = (r, w').
Proof.
  intros Hrun.
  destruct (try_run_deterministic _ _ _ _ _ _ _ _ Hrun
              (compress_pdf_try_run input_file output_file high_quality w))
    as [Hr Hw].
  rewrite Hr, Hw. by destruct (compress_pdf_try _ _ _ w).
Qed.

Lemma try_run_raise input_file output_file (high_quality : option bool) w
    (e : exn) (w' : world) :
  try_run input_file output_file (default true high_quality) w (Raise e) w' ->
  compress_pdf input_file output_file high_quality w
  = (Raise e, World (fs w') (log w' ++ [EvPrint (diagnostic e)]) (clock w')).
Proof.
  intros Hrun. rewrite compress_pdf_run.
  by rewrite (try_run_complete _ _ _ _ _ _ Hrun).
Qed.

Lemma try_run_return input_file output_file (high_quality : option bool) w
    (st : stats) (w' : world) :
  try_run input_file output_file (default true high_quality) w (Return st) w' ->
  compress_pdf input_file output_file high_quality w = (Return st, w').
Proof.
  intros Hrun. rewrite compress_pdf_run.
  by rewrite (try_run_complete _ _ _ _ _ _ Hrun).
Qed.

(** The loop has a run from every state, and on pages that all compress it
    is the run that adds their compressed forms. *)
Lemma loop_run_exists (high_quality : bool) (total_pages n : nat)
    (pages writer : list page) :
  exists evs r, loop_run high_quality total_pages n pages writer evs r.
Proof.
  destruct (compress_pages_run high_quality total_pages pages n writer
              (World ∅ [] 0)) as (evs & r & _ & Hrun).
  by exists evs, r.
Qed.

Lemma Forall2_compressed_compressible (high_quality : bool)
    (pages added : list page) :
  Forall2 (fun p p' =>
             compress_content_streams (quality_level high_quality) p
             = Return p') pages added ->
  Forall (compressible high_quality) pages.
Proof.
  induction 1; constructor; [by eexists|done].
Qed.

Lemma Forall2_compressed_unique (level : option Z)
    (pages added1 added2 : list page) :
  Forall2 (fun p p' => compress_content_streams level p = Return p')
          pages added1 ->
  Forall2 (fun p p' => compress_content_streams level p = Return p')
          pages added2 ->
  added1 = added2.
Proof.
  intros Hall. revert added2.
  induction Hall as [|p p' pages added1 Hp _ IH]; intros added2 Hall2;
    inversion Hall2; subst; [done|].
  f_equal; [congruence|by apply IH].
Qed.

Lemma loop_run_compressed (high_quality : bool) (total_pages n : nat)
    (pages writer added : list page) :
  Forall2 (fun p p' =>
             compress_content_streams (quality_level high_quality) p
             = Return p') pages added ->
  exists evs,
    loop_run high_quality total_pages n pages writer evs
      (Return (writer ++ added)).
Proof.
  intros Hall.
  destruct (loop_run_exists high_quality total_pages n pages writer)
    as (evs & r & Hrun).
  destruct (loop_run_compressible _ _ _ _ _ _ _ Hrun
              (Forall2_compressed_compressible _ _ _ Hall)) as [writer' ->].
  destruct (loop_run_return _ _ _ _ _ _ _ Hrun writer' eq_refl)
    as (added' & -> & _ & _ & Hall').
  rewrite (Forall2_compressed_unique _ _ _ _ Hall Hall').
  by exists evs.
Qed.


(** Takes a run of [compress_pdf] apart, as in the proofs of the claims. *)
Ltac outcome_cases input_file output_file high_quality w :=
  rewrite ?(compress_pdf_run input_file output_file high_quality w) in *;
  let Hrun := fresh "Hrun" in
  pose proof (compress_pdf_try_run input_file output_file
                (default true high_quality) w) as Hrun;
  destruct (compress_pdf_try input_file output_file
              (default true high_quality) w) as [? ?];
  cbn [fst snd] in Hrun;
  inversion Hrun; subst; clear Hrun; cbn [fst snd fs log clock] in *.

(** *** Progress lines *)

Lemma printed_app (evs1 evs2 : list event) :
  printed (evs1 ++ evs2) = printed evs1 ++ printed evs2.
Proof. apply omap_app. Qed.

(** The loop prints one line per page it has added, numbered from the
    page number it starts at. *)
Lemma loop_run_printed (high_quality : bool) (total_pages n : nat)
    (pages writer : list page) (evs : list event) (r : result (list page)) :
  loop_run high_quality total_pages n pages writer evs r ->
  printed evs = progress_lines n (length (added_pages evs)) total_pages.
Proof.
  induction 1 as [n writer|n p rest writer e Hp
                 |n p p' rest writer evs r Hp Hrun IH]; [done|done|].
  change (printed (EvCompress (quality_level high_quality) p
                     :: EvAddPage p'
                     :: EvPrint (MsgCompressedPage n total_pages) :: evs))
    with (MsgCompressedPage n total_pages :: printed evs).
  change (added_pages (EvCompress (quality_level high_quality) p
                         :: EvAddPage p'
                         :: EvPrint (MsgCompressedPage n total_pages) :: evs))
    with (p' :: added_pages evs).
  by rewrite IH.
Qed.

(** X1: on a valid document of N pages the driver prints "Processing N
    pages...", then "Compressed page k/N" for k = 1, 2, ..., N in this
    order (numbered from 1, one line per page), then "Saving compressed
    file...", and only then whatever follows. *)
Theorem compress_pdf_progress_lines input_file output_file
    (high_quality : option bool) w (content : list byte)
    (pages : list page) :
  fs w !! resolve input_file = Some content ->
  open_rb_error input_file = None ->
  PdfReader_read content = Return pages ->
  Forall (compressible (default true high_quality)) pages ->
  exists evs rest,
    log (compress_pdf input_file output_file high_quality w).2
    = log w ++ evs
    /\ printed evs
       = MsgProcessing (length pages)
           :: progress_lines 1 (length pages) (length pages)
           ++ MsgSaving :: rest.
Proof.
  intros Hin Hrb Hread Hvalid.
  outcome_cases input_file output_file high_quality w.
  1-3: congruence || (match goal with H : is_Some _ |- _ => destruct H end;
                      congruence).
  all: assert (content0 = content) as -> by congruence;
       assert (pages0 = pages) as -> by congruence.
  { match goal with
    | Hloop : loop_run _ _ _ _ _ _ (Raise _) |- _ =>
        destruct (loop_run_compressible _ _ _ _ _ _ _ Hloop Hvalid)
    end. discriminate. }
  all: match goal with
       | Hloop : loop_run _ _ _ _ _ _ (Return _) |- _ =>
           pose proof (loop_run_printed _ _ _ _ _ _ _ Hloop) as Hprinted;
           destruct (loop_run_document _ _ _ _ _ _ Hloop)
             as (Hadded & _ & Hall);
           rewrite Hadded, <- (Forall2_length _ _ _ Hall) in Hprinted
       end.
  all: rewrite <- ?app_assoc; eexists _, _; split; [reflexivity|].
  all: rewrite !printed_app, Hprinted; cbn; reflexivity.
Qed.

(** *** Failures after the document was opened *)

Lemma loop_run_first_failure (high_quality : bool) (total_pages : nat)
    (before added : list page) (p : page) (rest : list page) (e : exn) :
  Forall2 (fun p p' =>
             compress_content_streams (quality_level high_quality) p
             = Return p') before added ->
  compress_content_streams (quality_level high_quality) p = Raise e ->
  forall (n : nat) (writer : list page),
  exists evs,
    loop_run high_quality total_pages n (before ++ p :: rest) writer evs
      (Raise e)
    /\ compress_calls evs
       = pair (quality_level high_quality) <$> (before ++ [p])
    /\ added_pages evs = added.
Proof.
  intros Hall Hp.
  induction Hall as [|q q' before added Hq _ IH]; intros n writer.
  - eexists. split; [by apply loop_raise|done].
  - destruct (IH (S n) (writer ++ [q'])) as (evs & Hrun & Hcalls & Hadded).
    eexists. split; [by eapply loop_next|].
    split.
    + change (compress_calls
                (EvCompress (quality_level high_quality) q :: EvAddPage q'
                   :: EvPrint (MsgCompressedPage n total_pages) :: evs))
        with ((quality_level high_quality, q) :: compress_calls evs).
      by rewrite Hcalls.
    + change (added_pages
                (EvCompress (quality_level high_quality) q :: EvAddPage q'
                   :: EvPrint (MsgCompressedPage n total_pages) :: evs))
        with (q' :: added_pages evs).
      by rewrite Hadded.
Qed.

(** X2: the loop stops at the first page whose compression raises.  When
    the pages before page [p] compress and [p] raises [e], the call raises
    [e]: the pages up to and including [p] were passed to
    [compress_content_streams], once each and in order, the pages after [p]
    never were, the pages before [p] were added to the writer, and no file
    was opened for writing or written (the filesystem is unchanged). *)
Theorem compress_pdf_stops_at_first_failure input_file output_file
    (high_quality : option bool) w (content : list byte)
    (before added : list page) (p : page) (rest : list page) (e : exn) :
  fs w !! resolve input_file = Some content ->
  open_rb_error input_file = None ->
  PdfReader_read content = Return (before ++ p :: rest) ->
  Forall2 (fun p p' =>
             compress_content_streams
               (quality_level (default true high_quality)) p = Return p')
          before added ->
  compress_content_streams (quality_level (default true high_quality)) p
  = Raise e ->
  exists evs,
    compress_pdf input_file output_file high_quality w
    = (Raise e,
       World (fs w) (log w ++ evs ++ [EvPrint (diagnostic e)]) (S (clock w)))
    /\ compress_calls evs
       = pair (quality_level (default true high_quality)) <$> (before ++ [p])
    /\ added_pages evs = added
    /\ Forall (fun ev => writes_file ev = false) evs.
Proof.
  intros Hin Hrb Hread Hall Hp.
  destruct (loop_run_first_failure _ (length (before ++ p :: rest))
              _ _ _ rest _ Hall Hp 1%nat [])
    as (evs & Hrun & Hcalls & Hadded).
  exists (opening_events input_file (before ++ p :: rest) ++ evs).
  split_and!.
  - rewrite (try_run_raise _ _ _ _ _ _
               (run_page_failed _ _ _ _ _ _ _ _ Hin Hrb Hread Hrun)).
    cbn [fs log clock]. by rewrite <- !app_assoc.
  - by rewrite compress_calls_app.
  - by rewrite added_pages_app.
  - apply Forall_app. split; [by repeat constructor|].
    by eapply loop_run_not_written.
Qed.

(** X3: when every page compressed but [output_file] cannot be opened for
    writing, the call raises what [open] raised: the whole document was
    built (every compressed page added), [writer.write] is never called and
    the filesystem is unchanged, so an output file that exists keeps its
    content and one that does not is not created. *)
Theorem compress_pdf_output_open_failure input_file output_file
    (high_quality : option bool) w (content : list byte)
    (pages added : list page) (e : exn) :
  fs w !! resolve input_file = Some content ->
  open_rb_error input_file = None ->
  PdfReader_read content = Return pages ->
  Forall2 (fun p p' =>
             compress_content_streams
               (quality_level (default true high_quality)) p = Return p')
          pages added ->
  open_wb_error output_file = Some e ->
  exists evs,
    compress_pdf input_file output_file high_quality w
    = (Raise e,
       World (fs w)
             (log w ++ evs ++ [EvOpenWrite output_file;
                               EvPrint (diagnostic e)])
             (S (clock w)))
    /\ added_pages evs = added
    /\ Forall (fun ev => writes_file ev = false) evs.
Proof.
  intros Hin Hrb Hread Hall Hwb.
  destruct (loop_run_compressed _ (length pages) 1 _ [] _ Hall)
    as (evs & Hrun).
  rewrite app_nil_l in Hrun.
  destruct (loop_run_document _ _ _ _ _ _ Hrun) as (Hadded & _ & _).
  exists (opening_events input_file pages ++ evs ++ [EvPrint MsgSaving]).
  split_and!.
  - rewrite (try_run_raise _ _ _ _ _ _
               (run_create_failed _ _ _ _ _ _ _ _ _ Hin Hrb Hread Hrun Hwb)).
    cbn [fs log clock]. by rewrite <- !app_assoc.
  - rewrite !added_pages_app, Hadded. cbn. by rewrite app_nil_r.
  - rewrite !Forall_app. split_and!; [by repeat constructor| |by repeat constructor].
    by eapply loop_run_not_written.
Qed.

(** X4: when [writer.write] raises after producing some bytes, the call
    raises the same exception and leaves at [output_file] exactly the bytes
    produced so far: the previous content is gone and is not restored, the
    partial file is not removed, and the sizes are never asked for. *)
Theorem compress_pdf_write_failure input_file output_file
    (high_quality : option bool) w (content : list byte)
    (pages added : list page) (e : exn) :
  fs w !! resolve input_file = Some content ->
  open_rb_error input_file = None ->
  PdfReader_read content = Return pages ->
  Forall2 (fun p p' =>
             compress_content_streams
               (quality_level (default true high_quality)) p = Return p')
          pages added ->
  open_wb_error output_file = None ->
  (PdfWriter_write added).2 = Some e ->
  exists evs,
    compress_pdf input_file output_file high_quality w
    = (Raise e,
       World (<[resolve output_file := (PdfWriter_write added).1]> (fs w))
             (log w ++ evs ++ [EvPrint (diagnostic e)])
             (S (clock w)))
    /\ Forall (fun ev => measures_file ev = false) evs.
Proof.
  intros Hin Hrb Hread Hall Hwb Hwrite.
  destruct (loop_run_compressed _ (length pages) 1 _ [] _ Hall)
    as (evs & Hrun).
  rewrite app_nil_l in Hrun.
  exists (opening_events input_file pages ++ evs
            ++ [EvPrint MsgSaving; EvOpenWrite output_file;
                EvWrite output_file added]).
  split.
  - rewrite (try_run_raise _ _ _ _ _ _
               (run_write_failed _ _ _ _ _ _ _ _ _
                  Hin Hrb Hread Hrun Hwb Hwrite)).
    cbn [fs log clock]. by rewrite <- !app_assoc.
  - rewrite !Forall_app. split_and!; [by repeat constructor| |by repeat constructor].
    by eapply loop_run_not_measured.
Qed.

(** *** The statistics of a successful call *)

(** X5: a successful call with the same path as input and as output
    reports the same size twice: both sizes are read after the write, so
    [original_size] is the size of the compressed file, not of the
    original. *)
Theorem compress_pdf_in_place_sizes (path : string)
    (high_quality : option bool) w (st : stats) (w' : world) :
  compress_pdf path path high_quality w = (Return st, w') ->
  original_size st = compressed_size st.
Proof.
  intros Heq. revert Heq.
  outcome_cases path path high_quality w; intros Heq; try discriminate.
  injection Heq as <- <-.
  match goal with
  | H : <[_:=_]> _ !! _ = Some _ |- _ =>
      rewrite lookup_insert_eq in H; injection H as <-
  end.
  reflexivity.
Qed.

(** X6: the summary printed by a successful call shows the values of the
    record it returns: the last five lines are the "completed" line and the
    four values [original_size], [compressed_size], [reduction_percent] and
    [processing_time] of the result, in this order. *)
Theorem compress_pdf_prints_returned_stats input_file output_file
    (high_quality : option bool) w (st : stats) (w' : world) :
  compress_pdf input_file output_file high_quality w = (Return st, w') ->
  exists evs,
    log w' = log w ++ evs
    /\ exists before,
         printed evs
         = before ++ [MsgCompleted;
                      MsgOriginalSize (original_size st);
                      MsgCompressedSize (compressed_size st);
                      MsgReduction (reduction_percent st);
                      MsgProcessingTime (processing_time st)].
Proof.
  intros Heq. revert Heq.
  outcome_cases input_file output_file high_quality w; intros Heq;
    try discriminate.
  injection Heq as <- <-. cbn [log].
  exists (opening_events input_file pages ++ evs
            ++ [EvPrint MsgSaving; EvOpenWrite output_file;
                EvWrite output_file writer;
                EvGetSize input_file; EvGetSize output_file]
            ++ summary_events st0).
  split; [reflexivity|].
  rewrite !printed_app.
  exists (printed (opening_events input_file pages) ++ printed evs
            ++ [MsgSaving]).
  rewrite <- !app_assoc. reflexivity.
Qed.

Lemma loop_run_no_clock (high_quality : bool) (total_pages n : nat)
    (pages writer : list page) (evs : list event) (r : result (list page)) :
  loop_run high_quality total_pages n pages writer evs r ->
  Forall (fun ev => reads_clock ev = false /\ measures_file ev = false) evs.
Proof.
  induction 1; repeat constructor; done.
Qed.

(** X7: when the clock is read.  A successful call reads it exactly twice:
    the first reading is the first thing the call does, the second comes
    right after the two [getsize] calls and right before the summary is
    printed (five lines, with no reading among or after them), and no
    reading or size query happens in between; [processing_time] is the
    difference of these two readings in seconds, rounded to 2 decimals.  A
    call that raises has read the clock once, as the first thing it did. *)
Theorem compress_pdf_processing_time input_file output_file
    (high_quality : option bool) w :
  match compress_pdf input_file output_file high_quality w with
  | (Return st, w') =>
      exists work,
        log w'
        = log w ++ EvNow :: work
            ++ [EvGetSize input_file; EvGetSize output_file; EvNow;
                EvPrint MsgCompleted;
                EvPrint (MsgOriginalSize (original_size st));
                EvPrint (MsgCompressedSize (compressed_size st));
                EvPrint (MsgReduction (reduction_percent st));
                EvPrint (MsgProcessingTime (processing_time st))]
        /\ Forall (fun ev => reads_clock ev = false
                             /\ measures_file ev = false) work
        /\ clock w' = S (S (clock w))
        /\ processing_time st
           = PyFloat.round
               (PyFloat.int_truediv
                  (datetime_now (S (clock w)) - datetime_now (clock w))
                  1000000) 2
  | (Raise _, w') =>
      exists work,
        log w' = log w ++ EvNow :: work
        /\ Forall (fun ev => reads_clock ev = false) work
        /\ clock w' = S (clock w)
  end.
Proof.
  outcome_cases input_file output_file high_quality w.
  all: try match goal with
           | Hloop : loop_run _ _ _ _ _ _ _ |- _ =>
               pose proof (loop_run_no_clock _ _ _ _ _ _ _ Hloop) as Hquiet
           end.
  - exists [EvExists input_file;
            EvPrint (diagnostic
                       (Exn FileNotFoundError
                          ("Input file not found: " ++ input_file)))].
    split_and!; [by rewrite <- app_assoc|by repeat constructor|done].
  - exists [EvExists input_file; EvPdfReader input_file;
            EvPrint (diagnostic e)].
    split_and!; [by rewrite <- app_assoc|by repeat constructor|done].
  - exists [EvExists input_file; EvPdfReader input_file;
            EvPrint (diagnostic e)].
    split_and!; [by rewrite <- app_assoc|by repeat constructor|done].
  - exists ([EvExists input_file; EvPdfReader input_file; EvPdfWriter;
             EvLenPages; EvPrint (MsgProcessing (length pages))]
              ++ evs ++ [EvPrint (diagnostic e)]).
    split_and!; [by rewrite <- !app_assoc| |done].
    rewrite !Forall_app. split_and!; [by repeat constructor| |by repeat constructor].
    eapply Forall_impl; [exact Hquiet|]. by intros ev [? _].
  - exists ([EvExists input_file; EvPdfReader input_file; EvPdfWriter;
             EvLenPages; EvPrint (MsgProcessing (length pages))]
              ++ evs ++ [EvPrint MsgSaving; EvOpenWrite output_file;
                         EvPrint (diagnostic e)]).
    split_and!; [by rewrite <- !app_assoc| |done].
    rewrite !Forall_app. split_and!; [by repeat constructor| |by repeat constructor].
    eapply Forall_impl; [exact Hquiet|]. by intros ev [? _].
  - exists ([EvExists input_file; EvPdfReader input_file; EvPdfWriter;
             EvLenPages; EvPrint (MsgProcessing (length pages))]
              ++ evs ++ [EvPrint MsgSaving; EvOpenWrite output_file;
                         EvWrite output_file writer;
                         EvPrint (diagnostic e)]).
    split_and!; [by rewrite <- !app_assoc| |done].
    rewrite !Forall_app. split_and!; [by repeat constructor| |by repeat constructor].
    eapply Forall_impl; [exact Hquiet|]. by intros ev [? _].
  - exists ([EvExists input_file; EvPdfReader input_file; EvPdfWriter;
             EvLenPages; EvPrint (MsgProcessing (length pages))]
              ++ evs ++ [EvPrint MsgSaving; EvOpenWrite output_file;
                         EvWrite output_file writer;
                         EvGetSize input_file; EvGetSize output_file;
                         EvPrint (diagnostic e)]).
    split_and!; [by rewrite <- !app_assoc| |done].
    rewrite !Forall_app. split_and!; [by repeat constructor| |by repeat constructor].
    eapply Forall_impl; [exact Hquiet|]. by intros ev [? _].
  - exists ([EvExists input_file; EvPdfReader input_file; EvPdfWriter;
             EvLenPages; EvPrint (MsgProcessing (length pages))]
              ++ evs ++ [EvPrint MsgSaving; EvOpenWrite output_file;
                         EvWrite output_file writer]).
    split_and!; [by rewrite <- !app_assoc| |reflexivity|reflexivity].
    rewrite !Forall_app. split_and!; [by repeat constructor|done|by repeat constructor].
Qed.

(** *** The previous content of the output file *)

(** A run started with other content in the output file is the same run;
    where it ends, the output file holds the other content if it was not
    written and the new bytes if it was. *)
Lemma try_run_old_output input_file output_file (high_quality : bool) w
    (old : list byte) (r : result stats) (w' : world) :
  resolve output_file <> resolve input_file ->
  try_run input_file output_file high_quality w r w' ->
  exists files,
    try_run input_file output_file high_quality
      (World (<[resolve output_file := old]> (fs w)) (log w) (clock w))
      r (World files (log w') (clock w'))
    /\ (forall st, r = Return st -> files = fs w').
Proof.
  intros Hdiff Hrun.
  assert (forall c, fs w !! resolve input_file = c ->
                    <[resolve output_file := old]> (fs w) !! resolve input_file = c)
    as Hlook by (intros c <-; by apply lookup_insert_ne).
  inversion Hrun; subst; cbn [fs log clock];
    try match goal with
        | H : <[_:=_]> _ !! _ = Some ?m |- _ =>
            rewrite lookup_insert_ne in H by done;
            assert (m = content) as -> by congruence
        end.
  all: set (w2 := World (<[resolve output_file := old]> (fs w)) (log w) (clock w)).
  1-5: exists (fs w2); split; [|done].
  6-8: exists (<[resolve output_file := (PdfWriter_write writer).1]> (fs w2));
       split;
         [|first [by intros st' Hst; discriminate Hst
                 |intros ? _; unfold w2; cbn [fs]; apply insert_insert_eq]].
  - exact (run_not_found _ _ _ w2 (Hlook _ H)).
  - refine (run_open_failed _ _ _ w2 _ _ H0).
    destruct H as [c Hc]. exists c. by apply Hlook.
  - exact (run_read_failed _ _ _ w2 _ _ (Hlook _ H) H0 H1).
  - exact (run_page_failed _ _ _ w2 _ _ _ _ (Hlook _ H) H0 H1 H2).
  - exact (run_create_failed _ _ _ w2 _ _ _ _ _ (Hlook _ H) H0 H1 H2 H3).
  - exact (run_write_failed _ _ _ w2 _ _ _ _ _ (Hlook _ H) H0 H1 H2 H3 H4).
  - refine (run_stats_failed _ _ _ w2 _ _ _ _ content _
              (Hlook _ H) H0 H1 H2 H3 H4 _ H6).
    cbn [fs w2]. rewrite lookup_insert_ne by done. by apply Hlook.
  - refine (run_completed _ _ _ w2 _ _ _ _ content _
              (Hlook _ H) H0 H1 H2 H3 H4 _ H6).
    cbn [fs w2]. rewrite lookup_insert_ne by done. by apply Hlook.
Qed.

(** X8: what a call does never depends on what the output file held
    before, when [output_file] and [input_file] name different files (they
    do not resolve to the same file): started with any other content in the
    output file, the call returns or raises the same, logs the same events,
    and when it returns it leaves the same filesystem. *)
Theorem compress_pdf_ignores_old_output input_file output_file
    (high_quality : option bool) w (old : list byte) :
  resolve output_file <> resolve input_file ->
  let w2 := World (<[resolve output_file := old]> (fs w)) (log w) (clock w) in
  (compress_pdf input_file output_file high_quality w2).1
  = (compress_pdf input_file output_file high_quality w).1
  /\ log (compress_pdf input_file output_file high_quality w2).2
     = log (compress_pdf input_file output_file high_quality w).2
  /\ (forall st,
        (compress_pdf input_file output_file high_quality w).1 = Return st ->
        fs (compress_pdf input_file output_file high_quality w2).2
        = fs (compress_pdf input_file output_file high_quality w).2).
Proof.
  intros Hdiff w2. subst w2.
  pose proof (compress_pdf_try_run input_file output_file
                (default true high_quality) w) as Hrun.
  destruct (try_run_old_output _ _ _ _ old _ _ Hdiff Hrun)
    as (files & Hrun2 & Hfiles).
  rewrite (compress_pdf_run input_file output_file high_quality w).
  destruct (compress_pdf_try input_file output_file
              (default true high_quality) w) as [[st|e] w'];
    cbn [fst snd] in *.
  - rewrite (try_run_return _ _ _ _ _ _ Hrun2). cbn [fst snd fs log].
    split_and!; [done|done|]. intros st' _. by eapply Hfiles.
  - rewrite (try_run_raise _ _ _ _ _ _ Hrun2). cbn [fst snd fs log].
    split_and!; [done|done|]. intros st' Hst. discriminate Hst.
Qed.

(** *** What a call does once at most *)

Lemma occurrences_app (test : event -> bool) (evs1 evs2 : list event) :
  occurrences test (evs1 ++ evs2)
  = (occurrences test evs1 + occurrences test evs2)%nat.
Proof.
  unfold occurrences. by rewrite List.filter_app, length_app.
Qed.

(** The loop only calls [compress_content_streams] and [add_page] and
    prints. *)
Lemma loop_run_occurrences (test : event -> bool) (high_quality : bool)
    (total_pages n : nat) (pages writer : list page) (evs : list event)
    (r : result (list page)) :
  (forall level p, test (EvCompress level p) = false) ->
  (forall p, test (EvAddPage p) = false) ->
  (forall m, test (EvPrint m) = false) ->
  loop_run high_quality total_pages n pages writer evs r ->
  occurrences test evs = 0%nat.
Proof.
  intros Hcompress Hadd Hprint.
  induction 1 as [| |n p p' rest writer evs r Hp Hrun IH]; unfold occurrences;
    cbn [List.filter]; rewrite ?Hcompress, ?Hadd, ?Hprint; done.
Qed.

(** X12: nothing is tried twice.  In every run, whether it returns or
    raises, the reader is built at most once, the output file is opened for
    writing at most once and [writer.write] is called at most once. *)
Theorem compress_pdf_one_attempt input_file output_file
    (high_quality : option bool) w :
  exists evs,
    log (compress_pdf input_file output_file high_quality w).2
    = log w ++ evs
    /\ (occurrences builds_reader evs <= 1)%nat
    /\ (occurrences opens_output evs <= 1)%nat
    /\ (occurrences writes_document evs <= 1)%nat.
Proof.
  outcome_cases input_file output_file high_quality w.
  all: rewrite <- ?app_assoc; eexists; split; [reflexivity|].
  all: rewrite ?occurrences_app.
  all: repeat match goal with
              | Hloop : loop_run _ _ _ _ _ ?evs _ |- context [occurrences ?t ?evs] =>
                  rewrite (loop_run_occurrences t _ _ _ _ _ _ _
                             ltac:(done) ltac:(done) ltac:(done) Hloop)
              end.
  all: cbn; lia.
Qed.

(** *** A document without pages *)

(** X13: a file that the reader parses into a document without pages is
    not rejected: no page is compressed or added, the lines printed start
    with "Processing 0 pages..." and "Saving compressed file...", and when
    [output_file] can be opened the empty document is what is written. *)
Theorem compress_pdf_no_pages input_file output_file
    (high_quality : option bool) w (content : list byte) :
  fs w !! resolve input_file = Some content ->
  open_rb_error input_file = None ->
  PdfReader_read content = Return [] ->
  exists evs rest,
    log (compress_pdf input_file output_file high_quality w).2
    = log w ++ evs
    /\ compress_calls evs = []
    /\ added_pages evs = []
    /\ printed evs = MsgProcessing 0 :: MsgSaving :: rest
    /\ (open_wb_error output_file = None -> EvWrite output_file [] ∈ evs).
Proof.
  intros Hin Hrb Hread.
  outcome_cases input_file output_file high_quality w.
  1-3: congruence || (match goal with H : is_Some _ |- _ => destruct H end;
                      congruence).
  all: assert (content0 = content) as -> by congruence;
       assert (pages = []) as -> by congruence.
  all: match goal with
       | Hloop : loop_run _ _ _ [] _ _ _ |- _ => inversion Hloop; subst
       end.
  all: rewrite <- ?app_assoc; eexists _, _; split; [reflexivity|].
  all: split_and!; [reflexivity|reflexivity|reflexivity|].
  1: congruence.
  all: intros _; rewrite !elem_of_app, !elem_of_cons; eauto 10.
Qed.

(** *** main *)

(** A call changes no file but the one [output_file] names. *)
Lemma compress_pdf_frame input_file output_file
    (high_quality : option bool) w (file : string) :
  file <> resolve output_file ->
  fs (compress_pdf input_file output_file high_quality w).2 !! file
  = fs w !! file.
Proof.
  intros Hfile.
  outcome_cases input_file output_file high_quality w;
    by rewrite ?lookup_insert_ne.
Qed.

(** X9: [main] changes no file other than the one that the path
    [example_compressed.pdf] names, whatever happens inside [compress_pdf];
    so when [example.pdf] names another file, that file is as it was. *)
Theorem main_frames w :
  (forall file,
     file <> resolve "example_compressed.pdf" ->
     fs (main w).2 !! file = fs w !! file)
  /\ (resolve "example.pdf" <> resolve "example_compressed.pdf" ->
      fs (main w).2 !! resolve "example.pdf"
      = fs w !! resolve "example.pdf").
Proof.
  assert (forall file,
            file <> resolve "example_compressed.pdf" ->
            fs (main w).2 !! file = fs w !! file) as Hframe.
  { intros file Hfile.
    pose proof (compress_pdf_frame "example.pdf" "example_compressed.pdf"
                  None w file Hfile) as Hfs.
    unfold main, try_except, bind.
    by destruct (compress_pdf "example.pdf" "example_compressed.pdf" None w)
      as [[st|e] w']. }
  split; [exact Hframe|by apply Hframe].
Qed.

(** X10: when [example.pdf] does not exist [main] returns 1 having printed
    two lines, the diagnostic of [compress_pdf] and its own "Compression
    failed" line, both with the not-found message; no file is touched. *)
Theorem main_input_missing w :
  fs w !! resolve "example.pdf" = None ->
  main w
  = (Return 1,
     World (fs w)
           (log w ++ [EvNow; EvExists "example.pdf";
                      EvPrint (MsgError "Input file not found: example.pdf");
                      EvPrint (MsgCompressionFailed
                                 "Input file not found: example.pdf")])
           (S (clock w))).
Proof.
  intros Hmissing. unfold main, try_except, bind.
  rewrite (try_run_raise _ _ None _ _ _
             (run_not_found "example.pdf" "example_compressed.pdf" true w
                Hmissing)).
  cbn. by rewrite <- !app_assoc.
Qed.

(** X11: [main] always compresses at the default quality: no call of
    [compress_content_streams] made by [main] passes a [level]. *)
Theorem main_uses_default_level w (evs : list event) :
  log (main w).2 = log w ++ evs ->
  Forall (fun call => call.1 = None) (compress_calls evs).
Proof.
  destruct (compress_pdf_calls "example.pdf" "example_compressed.pdf" None w)
    as (evs' & Hlog & Hlevels & _).
  unfold main, try_except, bind.
  destruct (compress_pdf "example.pdf" "example_compressed.pdf" None w)
    as [[st|e] w']; cbn in *; rewrite Hlog.
  - by intros <-%app_inv_head.
  - rewrite <- app_assoc. intros <-%app_inv_head.
    rewrite compress_calls_app. cbn. by rewrite app_nil_r.
Qed.

End Outcomes.

(** * The driver on concrete files *)

Section Examples.

Local Existing Instance Toy.platform.

(** A 1500-byte file of three pages, compressed at the default quality:
    1.46 KB become 0.98 KB, a reduction of 33.4 percent. *)
Example run_example :
  (Toy.run true "example.pdf" "out.pdf" None [("example.pdf", 1500%nat)]).1
  = Return (Stats (PyFloat.int_truediv 146 100) (PyFloat.int_truediv 98 100)
                  (PyFloat.int_truediv 334 10) (PyFloat.int_truediv 25 100)).
Proof. vm_compute. reflexivity. Qed.

(** The three pages of that file reach the writer. *)
Lemma compress_pdf_keeps_every_page_witness :
  let w := Toy.boot (H := Toy.library true) [("example.pdf", 1500%nat)] in
  exists evs writer,
    log (compress_pdf (Lib := Toy.library true)
           "example.pdf" "out.pdf" None w).2 = log w ++ evs
    /\ added_pages evs = writer
    /\ length writer = 3%nat.
Proof.
  intros w.
  destruct (compress_pdf_keeps_every_page (Lib := Toy.library true)
              "example.pdf" "out.pdf" None w (Toy.file 1500)
              [500; 500; 500]%nat)
    as (evs & writer & Hlog & Hadded & Hlen & _).
  - vm_compute. reflexivity.
  - reflexivity.
  - vm_compute. reflexivity.
  - repeat constructor; eexists; reflexivity.
  - exists evs, writer. repeat split; assumption.
Defined.

(** At the lower quality each of the three pages is compressed once, at
    level 9. *)
Lemma compress_pdf_quality_parameter_witness :
  let w := Toy.boot (H := Toy.library true) [("example.pdf", 1500%nat)] in
  exists evs,
    log (compress_pdf (Lib := Toy.library true)
           "example.pdf" "out.pdf" (Some false) w).2 = log w ++ evs
    /\ compress_calls evs
       = [(Some 9, 500%nat); (Some 9, 500%nat); (Some 9, 500%nat)].
Proof.
  intros w.
  destruct (compress_pdf_quality_parameter (Lib := Toy.library true)
              "example.pdf" "out.pdf" w) as (_ & Hcalls & _).
  exists (log (compress_pdf (Lib := Toy.library true)
                 "example.pdf" "out.pdf" (Some false) w).2).
  split; [reflexivity|].
  rewrite (Hcalls (Some false) (Toy.file 1500) [500; 500; 500]%nat).
  - reflexivity.
  - vm_compute. reflexivity.
  - reflexivity.
  - vm_compute. reflexivity.
  - repeat constructor; eexists; reflexivity.
  - reflexivity.
Defined.

(** On a machine without files the driver fails with its not-found. *)
Lemma compress_pdf_input_not_found_witness :
  let w := Toy.boot (H := Toy.library true) [] in
  fs w !! "example.pdf" = None
  /\ (compress_pdf (Lib := Toy.library true)
        "example.pdf" "out.pdf" None w).1
     = Raise (Exn FileNotFoundError "Input file not found: example.pdf").
Proof.
  intros w.
  assert (fs w !! "example.pdf" = None) as Hmissing
    by (vm_compute; reflexivity).
  split; [exact Hmissing|].
  destruct (compress_pdf_input_not_found (Lib := Toy.library true)
              "example.pdf" "out.pdf" None w Hmissing) as (Heq & _).
  rewrite Heq. reflexivity.
Defined.

(** C4, as stated, fails on the 1500-byte file: the record holds 1.46 and
    0.98 KB, and the reduction it holds, 33.4 (from 1500 and 999 bytes),
    is not the one computed from these two values, 32.9. *)
Lemma reduction_percent_not_from_rounded_sizes :
  let run := Toy.run true "example.pdf" "out.pdf" None
               [("example.pdf", 1500%nat)] in
  exists st ratio,
    run.1 = Return st
    /\ PyFloat.truediv
         (PrimFloat.sub (original_size st) (compressed_size st))
         (original_size st) = Return ratio
    /\ reduction_percent st
       <> PyFloat.round (PrimFloat.mul ratio (PrimFloat.of_uint63 100)) 1.
Proof.
  intros run.
  exists (Stats (PyFloat.int_truediv 146 100) (PyFloat.int_truediv 98 100)
                (PyFloat.int_truediv 334 10) (PyFloat.int_truediv 25 100)),
         (PrimFloat.div
            (PrimFloat.sub (PyFloat.int_truediv 146 100)
                           (PyFloat.int_truediv 98 100))
            (PyFloat.int_truediv 146 100)).
  split_and!.
  - vm_compute. reflexivity.
  - vm_compute. reflexivity.
  - intros Heq. apply (f_equal Prim2SF) in Heq. vm_compute in Heq.
    discriminate Heq.
Qed.

(** The statistics of that run are those of the two files on disk. *)
Lemma compress_pdf_statistics_witness :
  exists st w',
    Toy.run true "example.pdf" "out.pdf" None [("example.pdf", 1500%nat)]
    = (Return st, w')
    /\ original_size st = PyFloat.round (PyFloat.int_truediv 1500 1024) 2
    /\ compressed_size st = PyFloat.round (PyFloat.int_truediv 999 1024) 2.
Proof.
  destruct (Toy.run true "example.pdf" "out.pdf" None
              [("example.pdf", 1500%nat)]) as [[st|e] w'] eqn:Hrun.
  2:{ apply (f_equal fst) in Hrun. vm_compute in Hrun. discriminate Hrun. }
  exists st, w'. split; [reflexivity|].
  destruct (compress_pdf_statistics (Lib := Toy.library true)
              "example.pdf" "out.pdf" None _ st w' Hrun)
    as (input_content & output_content & ratio & Hin & Hout & Ho & Hc & _).
  assert (fs w' = <["out.pdf" := Toy.file 999]>
                    (Toy.disk [("example.pdf", 1500%nat)])) as Hfs.
  { apply (f_equal (fun r => fs r.2)) in Hrun. cbn [snd] in Hrun.
    rewrite <- Hrun. vm_compute. reflexivity. }
  rewrite Hfs in Hin, Hout.
  vm_compute in Hin. vm_compute in Hout.
  injection Hin as <-. injection Hout as <-.
  split; [exact Ho|exact Hc].
Defined.

(** The strict reader rejects the empty file as PyPDF2 does: the driver
    raises that exception and the machine has the files it had. *)
Lemma compress_pdf_empty_input_witness :
  let files := [("example.pdf", 0%nat)] in
  let run := Toy.run true "example.pdf" "out.pdf" None files in
  run.1 = Raise (Exn (OtherException "EmptyFileError")
                   "Cannot read an empty file")
  /\ fs run.2 = fs (Toy.boot (H := Toy.library true) files).
Proof.
  intros files run.
  destruct (compress_pdf_empty_input (Lib := Toy.library true)
              "example.pdf" "out.pdf" None (Toy.boot files)
              (Exn (OtherException "EmptyFileError")
                 "Cannot read an empty file"))
    as (e & evs & Heq & [->|Hopen] & _).
  - vm_compute. reflexivity.
  - reflexivity.
  - unfold run, Toy.run. rewrite Heq. split; reflexivity.
  - discriminate Hopen.
Defined.

(** An output file that exists already, with 4000 bytes, holds the 999
    bytes of the new document after the call. *)
Lemma compress_pdf_overwrites_output_witness :
  let files := [("example.pdf", 1500%nat); ("out.pdf", 4000%nat)] in
  exists st w',
    Toy.run true "example.pdf" "out.pdf" None files = (Return st, w')
    /\ fs (Toy.boot (H := Toy.library true) files) !! "out.pdf"
       = Some (Toy.file 4000)
    /\ fs w' !! "out.pdf" = Some (Toy.file 999).
Proof.
  intros files.
  destruct (Toy.run true "example.pdf" "out.pdf" None files)
    as [[st|e] w'] eqn:Hrun.
  2:{ apply (f_equal fst) in Hrun. vm_compute in Hrun. discriminate Hrun. }
  exists st, w'. split; [reflexivity|]. split; [vm_compute; reflexivity|].
  destruct (compress_pdf_overwrites_output (Lib := Toy.library true)
              "example.pdf" "out.pdf" None _ st w' Hrun)
    as (content & pages & writer & _ & _ & _ & _ & _ & Hfs).
  apply (f_equal (fun r => fs r.2 !! "out.pdf")) in Hrun.
  cbn [snd] in Hrun. rewrite <- Hrun. vm_compute. reflexivity.
Defined.

(** C9, as stated, fails when the two paths are the same: the 1200 bytes
    of the input are replaced by the 600 bytes of the output. *)
Lemma compress_pdf_in_place_overwrites_input :
  let files := [("example.pdf", 1200%nat)] in
  let w := Toy.boot (H := Toy.library true) files in
  let w' := (Toy.run true "example.pdf" "example.pdf" (Some false)
               files).2 in
  fs w !! "example.pdf" = Some (Toy.file 1200)
  /\ fs w' !! "example.pdf" = Some (Toy.file 600)
  /\ fs w' !! "example.pdf" <> fs w !! "example.pdf".
Proof.
  intros files w w'.
  assert (fs w !! "example.pdf" = Some (Toy.file 1200)) as Hbefore
    by (vm_compute; reflexivity).
  assert (fs w' !! "example.pdf" = Some (Toy.file 600)) as Hafter
    by (vm_compute; reflexivity).
  split_and!; [exact Hbefore|exact Hafter|].
  rewrite Hbefore, Hafter. intros Heq.
  apply (f_equal (fmap length)) in Heq. vm_compute in Heq.
  discriminate Heq.
Qed.

(** Written to another path, the same input is still there afterwards. *)
Lemma compress_pdf_leaves_input_witness :
  let files := [("example.pdf", 1200%nat)] in
  fs (Toy.run true "example.pdf" "out.pdf" (Some false) files).2
    !! "example.pdf"
  = Some (Toy.file 1200).
Proof.
  intros files.
  destruct (compress_pdf_leaves_input (Lib := Toy.library true)
              "example.pdf" "out.pdf" (Some false) (Toy.boot files))
    as (Hinput & _).
  - intros Hsame. vm_compute in Hsame. discriminate Hsame.
  - etransitivity; [exact Hinput|]. vm_compute. reflexivity.
Defined.

(** Two spellings of one path: written to [./example.pdf], the 1200 bytes
    of [example.pdf] are replaced as well. *)
Example compress_pdf_other_spelling :
  let files := [("example.pdf", 1200%nat)] in
  fs (Toy.run true "example.pdf" "./example.pdf" (Some false) files).2
    !! "example.pdf"
  = Some (Toy.file 600).
Proof. vm_compute. reflexivity. Qed.

(** The strict reader rejects the empty file: nothing is written. *)
Lemma compress_pdf_writes_after_all_pages_witness :
  let files := [("example.pdf", 0%nat)] in
  fs (Toy.run true "example.pdf" "out.pdf" None files).2 !! "out.pdf"
  = None.
Proof.
  intros files.
  destruct (compress_pdf_writes_after_all_pages (Lib := Toy.library true)
              "example.pdf" "out.pdf" None (Toy.boot files))
    as (evs & _ & Hearly & _).
  destruct Hearly as (_ & Hfs & _).
  - right; right; left. eexists [], _. split; vm_compute; reflexivity.
  - unfold Toy.run. rewrite Hfs. vm_compute. reflexivity.
Defined.

End Examples.

(** * Further runs on concrete files *)

Section Scenarios.

(** Three pages give three progress lines. *)
Lemma compress_pdf_progress_lines_witness :
  let w := Toy.boot (H := Toy.library true) [("example.pdf", 1500%nat)] in
  exists evs rest,
    log (compress_pdf (Lib := Toy.library true) (Os := Toy.platform)
           "example.pdf" "out.pdf" None w).2 = log w ++ evs
    /\ printed evs
       = MsgProcessing 3
           :: [MsgCompressedPage 1 3; MsgCompressedPage 2 3;
               MsgCompressedPage 3 3]
           ++ MsgSaving :: rest.
Proof.
  intros w.
  apply (compress_pdf_progress_lines (Lib := Toy.library true)
           (Os := Toy.platform) "example.pdf" "out.pdf" None w
           (Toy.file 1500) [500; 500; 500]%nat).
  - vm_compute. reflexivity.
  - reflexivity.
  - vm_compute. reflexivity.
  - repeat constructor; eexists; reflexivity.
Defined.

(** The third page of a 1200-byte file is too short for the fragile
    library: the call raises at it, with two pages added. *)
Lemma compress_pdf_stops_at_first_failure_witness :
  let w := Toy.boot (H := Toy.fragile_library) [("example.pdf", 1200%nat)] in
  exists evs : list (@event Toy.fragile_library),
    (compress_pdf (Lib := Toy.fragile_library) (Os := Toy.platform)
       "example.pdf" "out.pdf" None w).1
    = Raise (Exn (OtherException "PdfReadError") "Stream too short")
    /\ compress_calls evs = [(None, 500%nat); (None, 500%nat); (None, 200%nat)]
    /\ added_pages evs = [333%nat; 333%nat].
Proof.
  intros w.
  destruct (compress_pdf_stops_at_first_failure
              (Lib := Toy.fragile_library) (Os := Toy.platform)
              "example.pdf" "out.pdf" None w (Toy.file 1200)
              [500; 500]%nat [333; 333]%nat 200%nat []
              (Exn (OtherException "PdfReadError") "Stream too short"))
    as (evs & Heq & Hcalls & Hadded & _).
  - vm_compute. reflexivity.
  - reflexivity.
  - vm_compute. reflexivity.
  - repeat constructor.
  - reflexivity.
  - exists evs. rewrite Heq. repeat split; assumption.
Defined.

(** [locked.pdf] cannot be opened: it keeps its 4000 bytes. *)
Lemma compress_pdf_output_open_failure_witness :
  let files := [("example.pdf", 1500%nat); ("locked.pdf", 4000%nat)] in
  let w := Toy.boot (H := Toy.library true) files in
  let run := compress_pdf (Lib := Toy.library true)
               (Os := Toy.locked_platform)
               "example.pdf" "locked.pdf" None w in
  run.1 = Raise (Exn PermissionError "[Errno 13] Permission denied")
  /\ fs run.2 = fs w.
Proof.
  intros files w run.
  destruct (compress_pdf_output_open_failure
              (Lib := Toy.library true) (Os := Toy.locked_platform)
              "example.pdf" "locked.pdf" None w (Toy.file 1500)
              [500; 500; 500]%nat [333; 333; 333]%nat
              (Exn PermissionError "[Errno 13] Permission denied"))
    as (evs & Heq & _).
  - vm_compute. reflexivity.
  - reflexivity.
  - vm_compute. reflexivity.
  - repeat constructor.
  - reflexivity.
  - unfold run. rewrite Heq. split; reflexivity.
Defined.

(** The fragile writer gives up on the 1332 bytes of a 2000-byte input:
    100 bytes are left where 4000 were. *)
Lemma compress_pdf_write_failure_witness :
  let files := [("example.pdf", 2000%nat); ("out.pdf", 4000%nat)] in
  let w := Toy.boot (H := Toy.fragile_library) files in
  let run := compress_pdf (Lib := Toy.fragile_library) (Os := Toy.platform)
               "example.pdf" "out.pdf" None w in
  run.1 = Raise (Exn (OtherException "OSError") "No space left on device")
  /\ fs w !! "out.pdf" = Some (Toy.file 4000)
  /\ fs run.2 !! "out.pdf" = Some (Toy.file 100).
Proof.
  intros files w run.
  destruct (compress_pdf_write_failure
              (Lib := Toy.fragile_library) (Os := Toy.platform)
              "example.pdf" "out.pdf" None w (Toy.file 2000)
              [500; 500; 500; 500]%nat [333; 333; 333; 333]%nat
              (Exn (OtherException "OSError") "No space left on device"))
    as (evs & Heq & _).
  - vm_compute. reflexivity.
  - reflexivity.
  - vm_compute. reflexivity.
  - repeat constructor.
  - reflexivity.
  - reflexivity.
  - unfold run. rewrite Heq. cbn [fst snd fs].
    split_and!; [reflexivity|vm_compute; reflexivity|].
    rewrite lookup_insert_eq. vm_compute. reflexivity.
Defined.

(** Compressed in place, the 1500-byte file is reported as 0.98 KB
    before and after. *)
Lemma compress_pdf_in_place_sizes_witness :
  exists st w',
    Toy.run true "example.pdf" "example.pdf" None [("example.pdf", 1500%nat)]
    = (Return st, w')
    /\ original_size st = compressed_size st.
Proof.
  destruct (Toy.run true "example.pdf" "example.pdf" None
              [("example.pdf", 1500%nat)]) as [[st|e] w'] eqn:Hrun.
  2:{ apply (f_equal fst) in Hrun. vm_compute in Hrun. discriminate Hrun. }
  exists st, w'. split; [reflexivity|].
  exact (compress_pdf_in_place_sizes (Lib := Toy.library true)
           (Os := Toy.platform) "example.pdf" None _ st w' Hrun).
Defined.

(** The summary of the run on the 1500-byte file shows what it returns. *)
Lemma compress_pdf_prints_returned_stats_witness :
  exists st w' before,
    Toy.run true "example.pdf" "out.pdf" None [("example.pdf", 1500%nat)]
    = (Return st, w')
    /\ printed (log w')
       = before ++ [MsgCompleted;
                    MsgOriginalSize (original_size st);
                    MsgCompressedSize (compressed_size st);
                    MsgReduction (reduction_percent st);
                    MsgProcessingTime (processing_time st)].
Proof.
  destruct (Toy.run true "example.pdf" "out.pdf" None
              [("example.pdf", 1500%nat)]) as [[st|e] w'] eqn:Hrun.
  2:{ apply (f_equal fst) in Hrun. vm_compute in Hrun. discriminate Hrun. }
  destruct (compress_pdf_prints_returned_stats (Lib := Toy.library true)
              (Os := Toy.platform) "example.pdf" "out.pdf" None _ st w' Hrun)
    as (evs & Hlog & before & Hprinted).
  exists st, w', before. split; [reflexivity|].
  rewrite Hlog. exact Hprinted.
Defined.

(** With or without 4000 old bytes at [out.pdf], the same statistics. *)
Lemma compress_pdf_ignores_old_output_witness :
  (Toy.run true "example.pdf" "out.pdf" None
     [("out.pdf", 4000%nat); ("example.pdf", 1500%nat)]).1
  = (Toy.run true "example.pdf" "out.pdf" None
       [("example.pdf", 1500%nat)]).1.
Proof.
  destruct (compress_pdf_ignores_old_output (Lib := Toy.library true)
              (Os := Toy.platform) "example.pdf" "out.pdf" None
              (Toy.boot [("example.pdf", 1500%nat)]) (Toy.file 4000))
    as (Hsame & _).
  - discriminate.
  - exact Hsame.
Defined.

(** After [main], the 1500 bytes of [example.pdf] are still there. *)
Lemma main_frames_witness :
  let w := Toy.boot (H := Toy.library true) [("example.pdf", 1500%nat)] in
  fs (main (Lib := Toy.library true) (Os := Toy.platform) w).2
    !! "example.pdf"
  = Some (Toy.file 1500).
Proof.
  intros w.
  destruct (main_frames (Lib := Toy.library true) (Os := Toy.platform) w)
    as [_ Hinput].
  etransitivity.
  - apply Hinput. intros Hsame. vm_compute in Hsame. discriminate Hsame.
  - vm_compute. reflexivity.
Defined.

(** Without [example.pdf], [main] returns 1. *)
Lemma main_input_missing_witness :
  (main (Lib := Toy.library true) (Os := Toy.platform) (Toy.boot [])).1
  = Return 1.
Proof.
  rewrite (main_input_missing (Lib := Toy.library true) (Os := Toy.platform)
             (Toy.boot [])); [reflexivity|].
  vm_compute. reflexivity.
Defined.

(** The three pages of [example.pdf] are compressed by [main] without a
    level. *)
Lemma main_uses_default_level_witness :
  let w := Toy.boot (H := Toy.library true) [("example.pdf", 1500%nat)] in
  Forall (fun call => call.1 = None)
    (compress_calls
       (log (main (Lib := Toy.library true) (Os := Toy.platform) w).2)).
Proof.
  intros w.
  apply (main_uses_default_level (Lib := Toy.library true)
           (Os := Toy.platform) w).
  reflexivity.
Defined.

(** The lenient reader takes the empty file for a document without pages:
    nothing is compressed. *)
Lemma compress_pdf_no_pages_witness :
  let w := Toy.boot (H := Toy.library false) [("example.pdf", 0%nat)] in
  exists (evs : list (@event (Toy.library false))) rest,
    log (compress_pdf (Lib := Toy.library false) (Os := Toy.platform)
           "example.pdf" "out.pdf" None w).2 = log w ++ evs
    /\ compress_calls evs = []
    /\ printed evs = MsgProcessing 0 :: MsgSaving :: rest.
Proof.
  intros w.
  destruct (compress_pdf_no_pages (Lib := Toy.library false)
              (Os := Toy.platform) "example.pdf" "out.pdf" None w [])
    as (evs & rest & Hlog & Hcalls & _ & Hprinted & _).
  - vm_compute. reflexivity.
  - reflexivity.
  - reflexivity.
  - exists evs, rest. repeat split; assumption.
Defined.

End Scenarios.
